(** * context-gen: the repository context generator (main.ts)

    A shallow embedding of [RepoContextGenerator] and of the [Deno]
    operations it relies on, followed by the properties of the
    classification and streaming-output pipeline.

    Conventions of the embedding.
    - A JavaScript string is the [string] of its UTF-8 bytes, as read
      by [TextDecoder] and written by [Deno.writeTextFile].  [trim]
      removes every white space and line terminator of ECMAScript, the
      ones beyond ASCII in their two- and three-byte encodings;
      [toLowerCase] acts on the ASCII letters, which decide whether the
      searched words ("text", "empty") occur.
    - The outside world (git, file(1), the file system as seen by reads,
      the clock) is a record of oracles [World].  Every request made to
      the world is appended to the machine's [trace]; the oracle is asked
      with the number of requests made so far, so the same path may
      answer differently at different moments (a file that disappears
      between [lstat] and [readTextFile], a path listed twice).
    - Files written by the program live in [fs]; a write that fails
      leaves [fs] as it was.
    - An [async] method is a computation in the monad [M]: it threads the
      machine state and completes by returning, by throwing a
      [DenoError], or by [Deno.exit]. *)

From Stdlib Require Import String Ascii List Arith Bool Lia.
From Stdlib Require Import Decimal DecimalString.
Import ListNotations.
Local Open Scope list_scope.
Local Open Scope string_scope.

(* ================================================================= *)
(** ** Strings as the program uses them *)

Module Js.

(** [String.prototype.toLowerCase] on one ASCII character. *)
Definition lower_char (c : ascii) : ascii :=
  let n := nat_of_ascii c in
  if ((65 <=? n) && (n <=? 90))%nat then ascii_of_nat (n + 32) else c.

Fixpoint toLowerCase (s : string) : string :=
  match s with
  | EmptyString => EmptyString
  | String c s' => String (lower_char c) (toLowerCase s')
  end.

(** [s.startsWith(search)]. *)
Fixpoint startsWith (s search : string) : bool :=
  match search, s with
  | EmptyString, _ => true
  | String _ _, EmptyString => false
  | String a search', String b s' => Ascii.eqb a b && startsWith s' search'
  end.

(** [s.includes(search)]: [search] occurs at some position of [s]. *)
Fixpoint includes (s search : string) : bool :=
  startsWith s search ||
  match s with
  | EmptyString => false
  | String _ s' => includes s' search
  end.

(** White space and line terminators, as [String.prototype.trim]
    knows them, by the length of their UTF-8 encoding.
    One byte: TAB, LF, VT, FF, CR, SP. *)
Definition white_space_1 (a : ascii) : bool :=
  let n := nat_of_ascii a in
  (((9 <=? n) && (n <=? 13)) || (n =? 32))%nat.

(** Two bytes: U+00A0 (C2 A0). *)
Definition white_space_2 (a b : ascii) : bool :=
  ((nat_of_ascii a =? 194) && (nat_of_ascii b =? 160))%nat.

(** Three bytes: U+1680 (E1 9A 80), U+2000 to U+200A (E2 80 80..8A),
    U+2028, U+2029, U+202F (E2 80 A8, A9, AF), U+205F (E2 81 9F),
    U+3000 (E3 80 80) and U+FEFF (EF BB BF). *)
Definition white_space_3 (a b c : ascii) : bool :=
  let x := nat_of_ascii a in
  let y := nat_of_ascii b in
  let z := nat_of_ascii c in
  (((x =? 225) && (y =? 154) && (z =? 128)) ||
   ((x =? 226) && (y =? 128) &&
      (((128 <=? z) && (z <=? 138)) || (z =? 168) || (z =? 169) || (z =? 175))) ||
   ((x =? 226) && (y =? 129) && (z =? 159)) ||
   ((x =? 227) && (y =? 128) && (z =? 128)) ||
   ((x =? 239) && (y =? 187) && (z =? 191)))%nat.

(** [s] is exactly one white space character. *)
Definition is_white_space (s : string) : bool :=
  match s with
  | String a EmptyString => white_space_1 a
  | String a (String b EmptyString) => white_space_2 a b
  | String a (String b (String c EmptyString)) => white_space_3 a b c
  | _ => false
  end.

(** [s] without the white space character it begins with, if any. *)
Definition white_head (s : string) : option string :=
  match s with
  | EmptyString => None
  | String a s1 =>
      if white_space_1 a then Some s1
      else
        match s1 with
        | EmptyString => None
        | String b s2 =>
            if white_space_2 a b then Some s2
            else
              match s2 with
              | EmptyString => None
              | String c s3 => if white_space_3 a b c then Some s3 else None
              end
        end
  end.

Fixpoint trimStart (s : string) : string :=
  match s with
  | EmptyString => EmptyString
  | String a s1 =>
      if white_space_1 a then trimStart s1
      else
        match s1 with
        | EmptyString => s
        | String b s2 =>
            if white_space_2 a b then trimStart s2
            else
              match s2 with
              | EmptyString => s
              | String c s3 => if white_space_3 a b c then trimStart s3 else s
              end
        end
  end.

Fixpoint trimEnd (s : string) : string :=
  match s with
  | EmptyString => EmptyString
  | String a s' =>
      let r := String a (trimEnd s') in
      if is_white_space r then EmptyString else r
  end.

Definition trim (s : string) : string := trimEnd (trimStart s).

(** [s.split(sep)] for a one-character separator: never the empty list. *)
Fixpoint split (sep : ascii) (s : string) : list string :=
  match s with
  | EmptyString => [EmptyString]
  | String c s' =>
      if Ascii.eqb c sep then EmptyString :: split sep s'
      else match split sep s' with
           | [] => [String c EmptyString]
           | h :: t => String c h :: t
           end
  end.

(** [Array.prototype.join]. *)
Definition join (sep : string) (parts : list string) : string :=
  String.concat sep parts.

(** A counter interpolated in a template literal: its decimal digits. *)
Definition of_number (n : nat) : string :=
  NilEmpty.string_of_uint (Nat.to_uint n).

Definition LF : ascii := ascii_of_nat 10.
Definition nl : string := String LF EmptyString.

End Js.

(* ================================================================= *)
(** ** Data of the program and of the Deno runtime *)

(** [interface Stats]. *)
Record Stats := { processed : nat; skipped : nat }.

(** A thrown value: whether it is an [instanceof Deno.errors.NotFound],
    and its [message]. *)
Record DenoError := { notFound : bool; message : string }.

(** [new Error(msg)]. *)
Definition new_Error (msg : string) : DenoError :=
  {| notFound := false; message := msg |}.

(** A settled promise. *)
Inductive Result (A : Type) : Type :=
| Ok (a : A)
| Err (e : DenoError).
Arguments Ok {A} a.
Arguments Err {A} e.

(** [Deno.CommandOutput]. *)
Record CommandOutput := {
  success : bool;
  code : nat;
  stdout : string;
  stderr : string
}.

(** [Deno.FileInfo], as far as the program looks at it. *)
Record FileInfo := { isFile : bool; isDirectory : bool; isSymlink : bool }.

(** The outside world.  Each oracle receives the number of requests
    made before this one. *)
Record World := {
  (** [denojson.version], from the imported deno.json. *)
  denojson_version : string;
  (** [join] of jsr:@std/path. *)
  path_join : string -> string -> string;
  (** [new Date().toISOString()]. *)
  date_toISOString : nat -> string;
  (** [new Deno.Command(name, { args }).output()]: the output collected,
      or the error of a command that could not be started. *)
  command_output : nat -> string -> list string -> Result CommandOutput;
  (** [Deno.lstat(path)]. *)
  lstat : nat -> string -> Result FileInfo;
  (** [Deno.readTextFile(path)]. *)
  readTextFile : nat -> string -> Result string;
  (** [Deno.writeTextFile(path, data, options)]: the failure, if any. *)
  writeTextFile_failure : nat -> string -> option DenoError
}.

(** Requests made to the world, with the answer received. *)
Inductive Event : Type :=
| EvDate (iso : string)
| EvCommand (name : string) (args : list string) (r : Result CommandOutput)
| EvLstat (path : string) (r : Result FileInfo)
| EvReadTextFile (path : string) (r : Result string)
| EvWriteTextFile (path data : string) (append : bool) (failure : option DenoError)
| EvExit (code : nat).

Inductive Stream := Stdout | Stderr.
Inductive Colour := Plain | Bold | Green | Red | Yellow.

(** One [console.log] / [console.error] line. *)
Record LogLine := { stream : Stream; colour : Colour; text : string }.

(** The generator object ([outputFile], [stats], [repoRoot]) together
    with what the process has done so far. *)
Record Machine := {
  outputFile : string;
  stats : Stats;
  repoRoot : string;
  fs : string -> option string;
  console : list LogLine;
  trace : list Event
}.

Definition set_stats (st : Stats) (m : Machine) : Machine :=
  {| outputFile := outputFile m; stats := st; repoRoot := repoRoot m;
     fs := fs m; console := console m; trace := trace m |}.

Definition set_repoRoot (r : string) (m : Machine) : Machine :=
  {| outputFile := outputFile m; stats := stats m; repoRoot := r;
     fs := fs m; console := console m; trace := trace m |}.

Definition set_fs (f : string -> option string) (m : Machine) : Machine :=
  {| outputFile := outputFile m; stats := stats m; repoRoot := repoRoot m;
     fs := f; console := console m; trace := trace m |}.

Definition add_console (l : LogLine) (m : Machine) : Machine :=
  {| outputFile := outputFile m; stats := stats m; repoRoot := repoRoot m;
     fs := fs m; console := (console m ++ [l])%list; trace := trace m |}.

Definition add_trace (e : Event) (m : Machine) : Machine :=
  {| outputFile := outputFile m; stats := stats m; repoRoot := repoRoot m;
     fs := fs m; console := console m; trace := (trace m ++ [e])%list |}.

(** [new RepoContextGenerator(outputFile)] in a process that starts
    with the files [files0]. *)
Definition new_RepoContextGenerator (out : string)
    (files0 : string -> option string) : Machine :=
  {| outputFile := out; stats := {| processed := 0; skipped := 0 |};
     repoRoot := ""; fs := files0; console := []; trace := [] |}.

(** Writing [data] to [path]: truncating, or appending (the file is
    created when absent). *)
Definition fs_write (path data : string) (append : bool)
    (f : string -> option string) : string -> option string :=
  fun p =>
    if String.eqb p path then
      match append, f path with
      | true, Some old => Some (old ++ data)
      | _, _ => Some data
      end
    else f p.

(* ================================================================= *)
(** ** The monad of async methods *)

Inductive Completion (A : Type) : Type :=
| Return (a : A)
| Throw (e : DenoError)
| Exit (code : nat).
Arguments Return {A} a.
Arguments Throw {A} e.
Arguments Exit {A} code.

Definition M (A : Type) : Type := Machine -> Completion A * Machine.

Definition ret {A} (a : A) : M A := fun m => (Return a, m).

Definition bind {A B} (c : M A) (k : A -> M B) : M B :=
  fun m =>
    match c m with
    | (Return a, m') => k a m'
    | (Throw e, m') => (Throw e, m')
    | (Exit n, m') => (Exit n, m')
    end.

Definition throw {A} (e : DenoError) : M A := fun m => (Throw e, m).

(** [try { body } catch (error) { handler }]: [Deno.exit] is not caught. *)
Definition try_catch {A} (body : M A) (handler : DenoError -> M A) : M A :=
  fun m =>
    match body m with
    | (Throw e, m') => handler e m'
    | r => r
    end.

Declare Scope js_scope.
Delimit Scope js_scope with js.
Notation "x <- c ;; k" := (bind c (fun x => k))
  (at level 61, c at next level, right associativity) : js_scope.
Notation "c ;; k" := (bind c (fun _ => k))
  (at level 61, right associativity) : js_scope.
Local Open Scope js_scope.

(** [for (const x of xs) body]. *)
Fixpoint for_of {A} (xs : list A) (body : A -> M unit) : M unit :=
  match xs with
  | [] => ret tt
  | x :: xs' => body x ;; for_of xs' body
  end.

Definition get {A} (proj : Machine -> A) : M A := fun m => (Return (proj m), m).
Definition modify (f : Machine -> Machine) : M unit := fun m => (Return tt, f m).

(** [await p]. *)
Definition await {A} (p : Result A) : M A :=
  match p with
  | Ok a => ret a
  | Err e => throw e
  end.

Definition console_log (c : Colour) (s : string) : M unit :=
  modify (add_console {| stream := Stdout; colour := c; text := s |}).

Definition console_error (c : Colour) (s : string) : M unit :=
  modify (add_console {| stream := Stderr; colour := c; text := s |}).

(* ================================================================= *)
(** ** The Deno runtime and [class RepoContextGenerator] *)

Section Program.

Variable W : World.

Definition settle {A} (r : Result A) : Completion A :=
  match r with
  | Ok a => Return a
  | Err e => Throw e
  end.

(** [new Date().toISOString()]. *)
Definition new_Date_toISOString : M string :=
  fun m =>
    let iso := date_toISOString W (length (trace m)) in
    (Return iso, add_trace (EvDate iso) m).

(** [new Deno.Command(name, { args }).output()]: the output that
    awaiting it yields, or the error thrown when the command cannot be
    started. *)
Definition Deno_Command_output (name : string) (args : list string)
    : M (Result CommandOutput) :=
  fun m =>
    let r := command_output W (length (trace m)) name args in
    (Return r, add_trace (EvCommand name args r) m).

(** [await Deno.lstat(path)]. *)
Definition Deno_lstat (path : string) : M FileInfo :=
  fun m =>
    let r := lstat W (length (trace m)) path in
    (settle r, add_trace (EvLstat path r) m).

(** [await Deno.readTextFile(path)]. *)
Definition Deno_readTextFile (path : string) : M string :=
  fun m =>
    let r := readTextFile W (length (trace m)) path in
    (settle r, add_trace (EvReadTextFile path r) m).

(** [await Deno.writeTextFile(path, data, { append })]. *)
Definition Deno_writeTextFile (path data : string) (append : bool) : M unit :=
  fun m =>
    let failure := writeTextFile_failure W (length (trace m)) path in
    let m1 := add_trace (EvWriteTextFile path data append failure) m in
    match failure with
    | None => (Return tt, set_fs (fs_write path data append (fs m)) m1)
    | Some e => (Throw e, m1)
    end.

(** [Deno.exit(code)]. *)
Definition Deno_exit {A} (code : nat) : M A :=
  fun m => (Exit code, add_trace (EvExit code) m).

(** [this.stats.skipped++] and [this.stats.processed++]. *)
Definition incr_skipped : M unit :=
  modify (fun m =>
    set_stats {| processed := processed (stats m);
                 skipped := S (skipped (stats m)) |} m).

Definition incr_processed : M unit :=
  modify (fun m =>
    set_stats {| processed := S (processed (stats m));
                 skipped := skipped (stats m) |} m).

Definition checkGitRepo : M bool :=
  try_catch
    (process <- Deno_Command_output "git" ["rev-parse"; "--git-dir"] ;;
     output <- await process ;;
     ret (success output))
    (fun _ => ret false).

Definition getRepoInfo : M (string * string) :=
  try_catch
    ((* the array handed to Promise.all is built left to right, and a
        command that cannot be started makes its [output()] throw at
        once: the second command is then never made *)
     rootPromise <- Deno_Command_output "git" ["rev-parse"; "--show-toplevel"] ;;
     rootOutput <- await rootPromise ;;
     branchPromise <- Deno_Command_output "git" ["branch"; "--show-current"] ;;
     branchOutput <- await branchPromise ;;
     ret (Js.trim (stdout rootOutput), Js.trim (stdout branchOutput)))
    (fun error =>
       throw (new_Error ("Failed to get repository info: " ++ message error))).

Definition getTrackedFiles : M (list string) :=
  try_catch
    (process <- Deno_Command_output "git" ["ls-files"] ;;
     output <- await process ;;
     if negb (success output) then
       throw (new_Error ("Git ls-files failed: " ++ stderr output))
     else
       ret (filter (fun line => negb (String.eqb (Js.trim line) ""))
                   (Js.split Js.LF (stdout output))))
    (fun error =>
       if notFound error then
         throw (new_Error
           "Git executable not found. Please ensure git is installed and in your PATH")
       else throw error).

Definition isBinaryFile (filePath : string) : M bool :=
  try_catch
    (process <- Deno_Command_output "file" [filePath] ;;
     output <- await process ;;
     let result := stdout output in
     ret (negb (Js.includes (Js.toLowerCase result) "text") &&
          negb (Js.includes (Js.toLowerCase result) "empty")))
    (fun error =>
       (* If file command fails, assume binary for safety *)
       console_error Red
         ("Error checking file type: " ++ filePath ++ ": " ++ message error) ;;
       ret true).

(** The template literal returned by [formatFileContent]. *)
Definition file_section (relativePath content : string) : string :=
  Js.nl ++ "=== File: " ++ relativePath ++ " ===" ++ Js.nl ++ Js.nl ++
  content ++ Js.nl ++ Js.nl ++ "=== End: " ++ relativePath ++ " ===" ++ Js.nl.

Definition formatFileContent (relativePath fullPath : string) : M string :=
  content <- Deno_readTextFile fullPath ;;
  ret (file_section relativePath content).

(** The [header] array of [generate], joined. *)
Definition header_text (iso root branch version : string) : string :=
  Js.join Js.nl
    [ "Repository Context Generated on " ++ iso;
      "Repository Root: " ++ root;
      "Current Branch: " ++ branch;
      "Generator Version: " ++ version;
      Js.nl ++ "---" ++ Js.nl ].

(** The [summary] array of [generate], joined. *)
Definition summary_text (st : Stats) (iso version : string) : string :=
  Js.join Js.nl
    [ Js.nl ++ "=== Summary ===" ++ Js.nl;
      "Files processed: " ++ Js.of_number (processed st);
      "Files skipped: " ++ Js.of_number (skipped st) ++
        " (binary, symlinks, or missing)";
      "Generated on: " ++ iso;
      "Generator Version: " ++ version ].

(** The body of the [for] loop of [generate]. *)
Definition process_file (relativePath : string) : M unit :=
  root <- get repoRoot ;;
  let fullPath := path_join W root relativePath in
  try_catch
    (stat <- Deno_lstat fullPath ;;
     if isSymlink stat then
       incr_skipped ;;
       console_log Yellow ("Skipped symlink: " ++ relativePath)
     else
       binary <- isBinaryFile fullPath ;;
       if binary then
         incr_skipped ;;
         console_log Yellow ("Skipped binary file: " ++ relativePath)
       else
         content <- formatFileContent relativePath fullPath ;;
         out <- get outputFile ;;
         Deno_writeTextFile out content true ;;
         incr_processed ;;
         console_log Green ("Processed: " ++ relativePath))
    (fun error =>
       if notFound error then
         incr_skipped ;;
         console_log Yellow ("Skipped missing file: " ++ relativePath)
       else
         console_error Red
           ("Error processing " ++ relativePath ++ ": " ++ message error)).

Definition generate : M unit :=
  isRepo <- checkGitRepo ;;
  (if negb isRepo then
     console_error Red "Error: Not a git repository" ;;
     Deno_exit 1
   else ret tt) ;;
  info <- getRepoInfo ;;
  let root := fst info in
  let branch := snd info in
  modify (set_repoRoot root) ;;
  out <- get outputFile ;;
  console_log Green ("Generating repository context in " ++ out ++ "...") ;;
  iso <- new_Date_toISOString ;;
  let header := header_text iso root branch (denojson_version W) in
  Deno_writeTextFile out header false ;;
  files <- getTrackedFiles ;;
  for_of files process_file ;;
  iso' <- new_Date_toISOString ;;
  st <- get stats ;;
  let summary := summary_text st iso' (denojson_version W) in
  Deno_writeTextFile out summary true ;;
  console_log Bold (Js.nl ++ "Complete!") ;;
  console_log Plain ("Processed " ++ Js.of_number (processed st) ++ " files") ;;
  console_log Plain ("Skipped " ++ Js.of_number (skipped st) ++ " files") ;;
  console_log Plain ("Output saved to: " ++ out).

End Program.

(* ================================================================= *)
(** ** Vocabulary of the specification *)

(** Two characters are the same letter when they are equal, or when
    one is a capital among A to Z (65 to 90) and the other the small
    letter of the same rank (97 to 122). *)
Definition same_letter (a b : ascii) : Prop :=
  a = b \/
  (exists rank, rank < 26 /\
     nat_of_ascii a = 65 + rank /\ nat_of_ascii b = 97 + rank) \/
  (exists rank, rank < 26 /\
     nat_of_ascii a = 97 + rank /\ nat_of_ascii b = 65 + rank).

(** Two strings read the same when letter case is ignored. *)
Inductive same_ignoring_case : string -> string -> Prop :=
| same_empty : same_ignoring_case EmptyString EmptyString
| same_next a b s t :
    same_letter a b -> same_ignoring_case s t ->
    same_ignoring_case (String a s) (String b t).

(** The word [word] occurs in [s] when letter case is ignored: some
    stretch of [s] reads [word] up to the case of its letters. *)
Definition occurs_ignoring_case (word s : string) : Prop :=
  exists pre mid post,
    s = pre ++ mid ++ post /\ same_ignoring_case mid word.

(** The fate of one tracked file (FileOutcome of the data model). *)
Inductive FileOutcome : Type :=
| Processed (content : string)
| SkippedSymlink
| SkippedBinary
| SkippedMissing
| Errored (msg : string).

Definition is_processed (o : FileOutcome) : bool :=
  match o with Processed _ => true | _ => false end.

Definition is_skipped (o : FileOutcome) : bool :=
  match o with
  | SkippedSymlink | SkippedBinary | SkippedMissing => true
  | _ => false
  end.

Definition is_errored (o : FileOutcome) : bool :=
  match o with Errored _ => true | _ => false end.

(** One turn of the loop in closed form: the path, its outcome, the
    requests made to the world and the lines printed.  [iteration] below
    computes it from the answers of the world; that [process_file] does
    exactly this is lemma [process_file_iteration]. *)
Record Iteration := {
  it_path : string;
  it_outcome : FileOutcome;
  it_events : list Event;
  it_lines : list LogLine
}.

Definition out_line (c : Colour) (s : string) : LogLine :=
  {| stream := Stdout; colour := c; text := s |}.

Definition err_line (c : Colour) (s : string) : LogLine :=
  {| stream := Stderr; colour := c; text := s |}.

(** What the [catch] clause of the loop makes of a thrown error: a
    NotFound error counts the file as skipped, any other is reported. *)
Definition caught (rel : string) (e : DenoError) (evs : list Event) : Iteration :=
  if notFound e then
    {| it_path := rel; it_outcome := SkippedMissing; it_events := evs;
       it_lines := [out_line Yellow ("Skipped missing file: " ++ rel)] |}
  else
    {| it_path := rel; it_outcome := Errored (message e); it_events := evs;
       it_lines :=
         [err_line Red ("Error processing " ++ rel ++ ": " ++ message e)] |}.

(** The text-or-binary verdict on the description printed by file(1). *)
Definition binary_description (result : string) : bool :=
  negb (Js.includes (Js.toLowerCase result) "text") &&
  negb (Js.includes (Js.toLowerCase result) "empty").

(** The turn of the loop for [rel], started after [t] requests, with
    output file [out] and absolute path [full]. *)
Definition iteration (W : World) (t : nat) (out rel full : string) : Iteration :=
  let r1 := lstat W t full in
  let e1 := EvLstat full r1 in
  match r1 with
  | Err e => caught rel e [e1]
  | Ok st =>
      if isSymlink st then
        {| it_path := rel; it_outcome := SkippedSymlink; it_events := [e1];
           it_lines := [out_line Yellow ("Skipped symlink: " ++ rel)] |}
      else
        let r2 := command_output W (S t) "file" [full] in
        let e2 := EvCommand "file" [full] r2 in
        match r2 with
        | Err e =>
            {| it_path := rel; it_outcome := SkippedBinary;
               it_events := [e1; e2];
               it_lines :=
                 [err_line Red ("Error checking file type: " ++ full ++ ": "
                                ++ message e);
                  out_line Yellow ("Skipped binary file: " ++ rel)] |}
        | Ok o =>
            if binary_description (stdout o) then
              {| it_path := rel; it_outcome := SkippedBinary;
                 it_events := [e1; e2];
                 it_lines := [out_line Yellow ("Skipped binary file: " ++ rel)] |}
            else
              let r3 := readTextFile W (S (S t)) full in
              let e3 := EvReadTextFile full r3 in
              match r3 with
              | Err e => caught rel e [e1; e2; e3]
              | Ok content =>
                  let w := writeTextFile_failure W (S (S (S t))) out in
                  let e4 :=
                    EvWriteTextFile out (file_section rel content) true w in
                  match w with
                  | Some e => caught rel e [e1; e2; e3; e4]
                  | None =>
                      {| it_path := rel; it_outcome := Processed content;
                         it_events := [e1; e2; e3; e4];
                         it_lines := [out_line Green ("Processed: " ++ rel)] |}
                  end
              end
        end
  end.

(** The turns of the loop over [files], the first started after [t]
    requests. *)
Fixpoint iterations (W : World) (t : nat) (out root : string)
    (files : list string) : list Iteration :=
  match files with
  | [] => []
  | rel :: rest =>
      let it := iteration W t out rel (path_join W root rel) in
      it :: iterations W (t + length (it_events it)) out root rest
  end.

(** The block an iteration adds to the document. *)
Definition section_of (it : Iteration) : string :=
  match it_outcome it with
  | Processed content => file_section (it_path it) content
  | _ => ""
  end.

Definition count_outcomes (p : FileOutcome -> bool) (its : list Iteration) : nat :=
  length (filter (fun it => p (it_outcome it)) its).

(** The counters after an outcome. *)
Definition count_outcome (o : FileOutcome) (st : Stats) : Stats :=
  match o with
  | Processed _ =>
      {| processed := S (processed st); skipped := skipped st |}
  | SkippedSymlink | SkippedBinary | SkippedMissing =>
      {| processed := processed st; skipped := S (skipped st) |}
  | Errored _ => st
  end.

(** The machine after an iteration. *)
Definition after_iteration (it : Iteration) (m : Machine) : Machine :=
  {| outputFile := outputFile m;
     stats := count_outcome (it_outcome it) (stats m);
     repoRoot := repoRoot m;
     fs :=
       match it_outcome it with
       | Processed _ => fs_write (outputFile m) (section_of it) true (fs m)
       | _ => fs m
       end;
     console := (console m ++ it_lines it)%list;
     trace := (trace m ++ it_events it)%list |}.

(** Reads that succeeded, and writes that succeeded, among events. *)
Definition is_successful_read (e : Event) : bool :=
  match e with EvReadTextFile _ (Ok _) => true | _ => false end.

Definition is_write (e : Event) : bool :=
  match e with EvWriteTextFile _ _ _ _ => true | _ => false end.

Definition is_read (e : Event) : bool :=
  match e with EvReadTextFile _ _ => true | _ => false end.

(** The machine after the turns [its] of the loop. *)
Definition after_iterations (its : list Iteration) (m : Machine) : Machine :=
  fold_left (fun acc it => after_iteration it acc) its m.

(** The counters after the turns [its]. *)
Definition tally (its : list Iteration) (st : Stats) : Stats :=
  fold_left (fun acc it => count_outcome (it_outcome it) acc) its st.

(** The file sections contributed by the turns [its], in order. *)
Definition document_body (its : list Iteration) : string :=
  fold_right (fun it rest => section_of it ++ rest) "" its.


(** One file section per entry, concatenated in order. *)
Definition sections_text (l : list (string * string)) : string :=
  fold_right (fun pc rest => file_section (fst pc) (snd pc) ++ rest) "" l.

(** The lines kept by [getTrackedFiles]. *)
Definition tracked_lines (listing : string) : list string :=
  filter (fun line => negb (String.eqb (Js.trim line) ""))
         (Js.split Js.LF listing).

Definition answer_stdout (r : Result CommandOutput) : string :=
  match r with
  | Ok o => stdout o
  | Err _ => ""
  end.

(** What a run of [generate] started after [t] requests obtains from
    git: the repository root, the branch and the tracked files. *)
Definition root_of (W : World) (t : nat) : string :=
  Js.trim (answer_stdout
    (command_output W (1 + t) "git" ["rev-parse"; "--show-toplevel"])).

Definition branch_of (W : World) (t : nat) : string :=
  Js.trim (answer_stdout
    (command_output W (2 + t) "git" ["branch"; "--show-current"])).

Definition listed_files (W : World) (t : nat) : list string :=
  tracked_lines (answer_stdout (command_output W (5 + t) "git" ["ls-files"])).

(** The turns of the loop in a run of [generate] from machine [m]. *)
Definition loop_of (W : World) (m : Machine) : list Iteration :=
  let t := length (trace m) in
  iterations W (6 + t) (outputFile m) (root_of W t) (listed_files W t).

(** All requests made by the turns [its]. *)
Definition events_of (its : list Iteration) : list Event :=
  flat_map it_events its.



(** A section successfully appended to the document. *)
Definition is_appended (e : Event) : bool :=
  match e with
  | EvWriteTextFile _ _ true None => true
  | _ => false
  end.

(* ================================================================= *)
(** ** Sample worlds *)

Module Demo.

Definition answer (ok : bool) (status : nat) (out : string)
    : Result CommandOutput :=
  Ok {| success := ok; code := status; stdout := out; stderr := "" |}.

Definition regular : Result FileInfo :=
  Ok {| isFile := true; isDirectory := false; isSymlink := false |}.

Definition link : Result FileInfo :=
  Ok {| isFile := false; isDirectory := false; isSymlink := true |}.

Definition gone : DenoError :=
  {| notFound := true; message := "No such file or directory (os error 2)" |}.

Definition denied : DenoError :=
  {| notFound := false; message := "Permission denied (os error 13)" |}.

Definition no_tool : DenoError :=
  {| notFound := true; message := "Failed to spawn 'file': entity not found" |}.

(** A repository at /repo on branch main.  [git_dir] answers
    [git rev-parse --git-dir], [listing] is what [git ls-files] prints,
    and [ls], [describe], [rd], [wf] answer [lstat], file(1), reads and
    writes. *)
Definition world (git_dir : Result CommandOutput) (listing : string)
    (ls : string -> Result FileInfo)
    (describe : string -> Result CommandOutput)
    (rd : nat -> string -> Result string)
    (wf : nat -> option DenoError) : World :=
  {| denojson_version := "1.0.0";
     path_join := fun a b => a ++ "/" ++ b;
     date_toISOString := fun _ => "2024-01-31T12:00:00.000Z";
     command_output := fun _ name args =>
       if String.eqb name "git" then
         match args with
         | ["rev-parse"; "--git-dir"] => git_dir
         | ["rev-parse"; "--show-toplevel"] => answer true 0 ("/repo" ++ Js.nl)
         | ["branch"; "--show-current"] => answer true 0 ("main" ++ Js.nl)
         | ["ls-files"] => answer true 0 listing
         | _ => Err (new_Error "unexpected git command")
         end
       else
         match args with
         | [path] => describe path
         | _ => Err (new_Error "unexpected command")
         end;
     lstat := fun _ path => ls path;
     readTextFile := rd;
     writeTextFile_failure := fun t _ => wf t |}.

Definition in_repo : Result CommandOutput := answer true 0 (".git" ++ Js.nl).

Definition describe_text (path : string) : Result CommandOutput :=
  answer true 0 (path ++ ": ASCII text").

(** The scenario of the specification: a text file, an image and a
    symbolic link. *)
Definition three_files : World :=
  world in_repo
    ("a.txt" ++ Js.nl ++ "img.png" ++ Js.nl ++ "link.txt" ++ Js.nl)
    (fun path => if String.eqb path "/repo/link.txt" then link else regular)
    (fun path =>
       if String.eqb path "/repo/img.png"
       then answer true 0 (path ++ ": PNG image data, 16 x 16")
       else describe_text path)
    (fun _ path =>
       if String.eqb path "/repo/a.txt" then Ok "hello" else Err gone)
    (fun _ => None).



(** a.txt is rewritten between two reads. *)
Definition changing : World :=
  world in_repo ("a.txt" ++ Js.nl) (fun _ => regular) describe_text
    (fun t _ => if Nat.eqb t 0 then Ok "first" else Ok "second")
    (fun _ => None).

(** file(1) is not installed. *)
Definition no_file_tool : World :=
  world in_repo ("a.txt" ++ Js.nl) (fun _ => regular) (fun _ => Err no_tool)
    (fun _ _ => Ok "hello") (fun _ => None).

(** The working directory is no repository. *)
Definition not_a_repo : World :=
  world (answer false 128 "") "" (fun _ => Err gone) (fun _ => Err no_tool)
    (fun _ _ => Err gone) (fun _ => None).

(** file(1) prints its verdict but exits with status 1. *)
Definition failing_status : World :=
  world in_repo ("a.txt" ++ Js.nl) (fun _ => regular)
    (fun path => answer false 1 (path ++ ": ASCII text"))
    (fun _ _ => Ok "hello") (fun _ => None).

(** a.txt is read, but the tenth request of the run, the append of its
    section, is refused. *)
Definition append_refused : World :=
  world in_repo ("a.txt" ++ Js.nl) (fun _ => regular) describe_text
    (fun _ _ => Ok "hello")
    (fun t => if Nat.eqb t 9 then Some denied else None).

(** A fresh generator, and one about to enter the loop. *)
Definition fresh : Machine :=
  new_RepoContextGenerator "repo_context.txt" (fun _ => None).

Definition in_loop : Machine := set_repoRoot "/repo" fresh.

(** [formatFileContent] called twice in a row with the same arguments. *)
Definition format_twice (W : World) (rel full : string) : M (string * string) :=
  first <- formatFileContent W rel full ;;
  second <- formatFileContent W rel full ;;
  ret (first, second).

End Demo.

(* ================================================================= *)
(** ** The command line: [main] *)

(** [interface CliOptions]: what [parseArgs] of jsr:@std/cli hands to
    [main]. *)
Record CliOptions := { output : string; version : bool; help : bool }.

(** [HELP_TEXT]. *)
Definition HELP_TEXT (W : World) : string :=
  Js.nl ++
  "Repository Context Generator " ++ denojson_version W ++ Js.nl ++
  Js.nl ++
  "A utility to generate a context file containing the contents of all tracked files in a git repository."
    ++ Js.nl ++
  Js.nl ++
  "USAGE:" ++ Js.nl ++
  "    repo-context [OPTIONS]" ++ Js.nl ++
  Js.nl ++
  "OPTIONS:" ++ Js.nl ++
  "    -h, --help       Show this help message" ++ Js.nl ++
  "    -v, --version    Show version information" ++ Js.nl ++
  "    -o, --output     Specify output file (default: repo_context.txt)"
    ++ Js.nl.

(** [new RepoContextGenerator(out)] in the running process: a generator
    with fresh counters; files, console and requests are the process's. *)
Definition construct (out : string) (m : Machine) : Machine :=
  {| outputFile := out; stats := {| processed := 0; skipped := 0 |};
     repoRoot := ""; fs := fs m; console := console m; trace := trace m |}.

(** [main], from the parsed arguments on. *)
Definition main (W : World) (args : CliOptions) : M unit :=
  (if help args then
     console_log Plain (HELP_TEXT W) ;;
     Deno_exit 0
   else ret tt) ;;
  (if version args then
     console_log Plain
       ("Repository Context Generator v" ++ denojson_version W) ;;
     Deno_exit 0
   else ret tt) ;;
  modify (construct (output args)) ;;
  generate W.

(* ================================================================= *)
(** ** Further vocabulary *)

(** [s] consists of white space characters only (the empty string
    included). *)
Fixpoint only_spaces (s : string) : bool :=
  match s with
  | EmptyString => true
  | String a s1 =>
      if Js.white_space_1 a then only_spaces s1
      else
        match s1 with
        | EmptyString => false
        | String b s2 =>
            if Js.white_space_2 a b then only_spaces s2
            else
              match s2 with
              | EmptyString => false
              | String c s3 =>
                  if Js.white_space_3 a b c then only_spaces s3 else false
              end
        end
  end.

(** The character [c] occurs in [s]. *)
Fixpoint has_char (c : ascii) (s : string) : bool :=
  match s with
  | EmptyString => false
  | String d s' => Ascii.eqb d c || has_char c s'
  end.

(** [s] does not begin with a white space character, respectively
    does not end with one: no end of [s] is a white space character. *)
Definition starts_clean (s : string) : bool :=
  match Js.white_head s with
  | Some _ => false
  | None => true
  end.

Fixpoint ends_clean (s : string) : bool :=
  match s with
  | EmptyString => true
  | String _ s' => negb (Js.is_white_space s) && ends_clean s'
  end.


(** A path that [git ls-files] can print on a line of its own and that
    [getTrackedFiles] keeps: no line feed, not only white space. *)
Definition listable (p : string) : Prop :=
  has_char Js.LF p = false /\ only_spaces p = false.

(** The paths handed to [Deno.lstat] among [evs], in order. *)
Definition lstat_paths (evs : list Event) : list string :=
  flat_map (fun e => match e with EvLstat p _ => [p] | _ => [] end) evs.

(** A write request, if [e] is one, is addressed to [out]. *)
Definition writes_to (out : string) (e : Event) : Prop :=
  match e with
  | EvWriteTextFile p _ _ _ => p = out
  | _ => True
  end.

(** From [m] to [m'] the program kept to its output file: the generator
    still names the same output file, no other file changed, and every
    write requested in between was addressed to it. *)
Definition confined (m m' : Machine) : Prop :=
  outputFile m' = outputFile m /\
  (forall p, p <> outputFile m -> fs m' p = fs m p) /\
  exists evs,
    trace m' = (trace m ++ evs)%list /\ Forall (writes_to (outputFile m)) evs.

(** Run from [m], the computation [c] keeps to the output file and does
    not call [Deno.exit]. *)
Definition tame_at {A} (m : Machine) (c : M A) : Prop :=
  forall r m',
    c m = (r, m') -> confined m m' /\ forall code, r <> Exit code.

(** The start and end markers of a file section. *)
Definition section_start (rel : string) : string :=
  Js.nl ++ "=== File: " ++ rel ++ " ===" ++ Js.nl ++ Js.nl.

Definition section_end (rel : string) : string :=
  Js.nl ++ Js.nl ++ "=== End: " ++ rel ++ " ===" ++ Js.nl.

(** The conditions under which a run started from [m] goes through:
    the repository check succeeds, both queries of [getRepoInfo] are
    answered, the listing succeeds, and the header and the summary can
    be written. *)
Definition run_goes_through (W : World) (m : Machine) : Prop :=
  let t := length (trace m) in
  (exists o, command_output W t "git" ["rev-parse"; "--git-dir"] = Ok o /\
             success o = true) /\
  (exists o, command_output W (1 + t) "git" ["rev-parse"; "--show-toplevel"] = Ok o) /\
  (exists o, command_output W (2 + t) "git" ["branch"; "--show-current"] = Ok o) /\
  writeTextFile_failure W (4 + t) (outputFile m) = None /\
  (exists o, command_output W (5 + t) "git" ["ls-files"] = Ok o /\
             success o = true) /\
  writeTextFile_failure W (7 + t + length (events_of (loop_of W m)))
    (outputFile m) = None.

(* ================================================================= *)
(** ** More sample worlds *)

Module Cases.

(** A no-break space, U+00A0: the bytes C2 A0. *)
Definition nbsp : string :=
  String (ascii_of_nat 194) (String (ascii_of_nat 160) EmptyString).

(** [W] with the answer to the command [name args] replaced by [r]. *)
Definition with_answer (W : World) (name : string) (args : list string)
    (r : Result CommandOutput) : World :=
  {| denojson_version := denojson_version W;
     path_join := path_join W;
     date_toISOString := date_toISOString W;
     command_output := fun t n a =>
       if String.eqb n name then
         if list_eq_dec String.string_dec a args then r
         else command_output W t n a
       else command_output W t n a;
     lstat := lstat W;
     readTextFile := readTextFile W;
     writeTextFile_failure := writeTextFile_failure W |}.

Definition spawn_failed : DenoError :=
  {| notFound := true; message := "Failed to spawn 'git': entity not found" |}.

(** git is not installed, yet the repository check is made to pass. *)
Definition no_git_for_info : World :=
  with_answer
    (with_answer Demo.three_files "git" ["rev-parse"; "--show-toplevel"]
       (Err spawn_failed))
    "git" ["branch"; "--show-current"] (Err spawn_failed).

(** [git ls-files] reports failure. *)
Definition listing_fails : World :=
  with_answer Demo.three_files "git" ["ls-files"]
    (Ok {| success := false; code := 128; stdout := "";
           stderr := "fatal: index file corrupt" |}).


(** The summary cannot be written: the fourteenth request is refused. *)
Definition summary_refused : World :=
  Demo.world Demo.in_repo
    ("a.txt" ++ Js.nl ++ "img.png" ++ Js.nl ++ "link.txt" ++ Js.nl)
    (fun path => if String.eqb path "/repo/link.txt" then Demo.link else Demo.regular)
    (fun path =>
       if String.eqb path "/repo/img.png"
       then Demo.answer true 0 (path ++ ": PNG image data, 16 x 16")
       else Demo.describe_text path)
    (fun _ path =>
       if String.eqb path "/repo/a.txt" then Ok "hello" else Err Demo.gone)
    (fun t => if Nat.eqb t 14 then Some Demo.denied else None).

(** file(1) names the path in its answer, here in capitals. *)
Definition capitals : World :=
  Demo.world Demo.in_repo ("CONTEXT.BIN" ++ Js.nl) (fun _ => Demo.regular)
    (fun path => Demo.answer true 0 (path ++ ": data"))
    (fun _ _ => Ok "hello") (fun _ => None).

(** A process in which an earlier context file and a note exist. *)
Definition used : Machine :=
  new_RepoContextGenerator "repo_context.txt"
    (fun p =>
       if String.eqb p "repo_context.txt" then Some "stale"
       else if String.eqb p "notes.md" then Some "keep me"
       else None).

End Cases.

(* ================================================================= *)
(** ** Facts about strings *)

Module JsFacts.
Import Js.

Lemma startsWith_spec (s search : string) :
  startsWith s search = true <-> exists post, s = search ++ post.
Proof.
  revert s; induction search as [|a search IH]; intros s.
  - split; [intros _; exists s; reflexivity | intros _; destruct s; reflexivity].
  - destruct s as [|b s]; cbn [startsWith].
    + split; [discriminate | intros [post H]; discriminate H].
    + rewrite andb_true_iff, Ascii.eqb_eq, IH. split.
      * intros [-> [post ->]]. exists post. reflexivity.
      * intros [post H]. cbn [append] in H. injection H as -> ->.
        split; [reflexivity | exists post; reflexivity].
Qed.

Lemma includes_spec (s search : string) :
  includes s search = true <-> exists pre post, s = pre ++ search ++ post.
Proof.
  induction s as [|c s IH]; cbn [includes]; rewrite orb_true_iff.
  - split.
    + intros [H|H]; [|discriminate].
      apply startsWith_spec in H as [post ->]. exists "", post. reflexivity.
    + intros [pre [post H]]. left. apply startsWith_spec.
      destruct pre; [exists post; exact H | discriminate H].
  - rewrite IH, startsWith_spec. split.
    + intros [[post H]|[pre [post H]]].
      * exists "", post. exact H.
      * exists (String c pre), post. cbn [append]. now rewrite H.
    + intros [[|a pre] [post H]].
      * left. exists post. exact H.
      * right. cbn [append] in H. injection H as -> ->.
        exists pre, post. reflexivity.
Qed.

Lemma toLowerCase_app (a b : string) :
  toLowerCase (a ++ b) = toLowerCase a ++ toLowerCase b.
Proof.
  induction a as [|c a IH]; cbn [append toLowerCase]; [reflexivity | now rewrite IH].
Qed.

(** Lower-casing works letter by letter, so a cut of the result is the
    image of a cut of the original. *)
Lemma toLowerCase_cut (s a b : string) :
  toLowerCase s = a ++ b ->
  exists a' b', s = a' ++ b' /\ toLowerCase a' = a /\ toLowerCase b' = b.
Proof.
  revert s; induction a as [|c a IH]; intros s H.
  - exists "", s. repeat split. exact H.
  - destruct s as [|d s]; [discriminate H|].
    cbn [append toLowerCase] in H. injection H as Hc H.
    destruct (IH _ H) as [a' [b' [-> [Ha Hb]]]].
    exists (String d a'), b'. cbn [append toLowerCase].
    rewrite Hc, Ha. repeat split. exact Hb.
Qed.

Lemma nat_of_ascii_inj (a b : ascii) : nat_of_ascii a = nat_of_ascii b -> a = b.
Proof.
  intros H. rewrite <- (ascii_nat_embedding a), <- (ascii_nat_embedding b).
  now rewrite H.
Qed.

Lemma lower_char_capital (c : ascii) (rank : nat) :
  rank < 26 -> nat_of_ascii c = 65 + rank ->
  nat_of_ascii (lower_char c) = 97 + rank.
Proof.
  intros Hr Hc. unfold lower_char. rewrite Hc.
  replace ((65 <=? 65 + rank) && (65 + rank <=? 90))%nat with true
    by (symmetry; apply andb_true_iff; split; apply Nat.leb_le; lia).
  rewrite nat_ascii_embedding by lia. lia.
Qed.

Lemma lower_char_other (c : ascii) :
  ~ (65 <= nat_of_ascii c <= 90) -> lower_char c = c.
Proof.
  intros H. unfold lower_char.
  destruct ((65 <=? nat_of_ascii c) && (nat_of_ascii c <=? 90))%nat eqn:E;
    [|reflexivity].
  apply andb_true_iff in E as [E1 E2]. apply Nat.leb_le in E1, E2. lia.
Qed.

(** [toLowerCase] identifies two characters exactly when they are the
    same letter. *)
Lemma same_letter_lower (a b : ascii) :
  same_letter a b <-> lower_char a = lower_char b.
Proof.
  split.
  - intros [->|[[rank [Hr [Ha Hb]]]|[rank [Hr [Ha Hb]]]]]; [reflexivity| |].
    + apply nat_of_ascii_inj. rewrite (lower_char_capital a rank Hr Ha).
      rewrite lower_char_other by lia. exact (eq_sym Hb).
    + apply nat_of_ascii_inj. rewrite (lower_char_capital b rank Hr Hb).
      rewrite lower_char_other by lia. exact Ha.
  - intros H.
    destruct (le_lt_dec 65 (nat_of_ascii a)) as [Ha1|Ha1];
      [destruct (le_lt_dec (nat_of_ascii a) 90) as [Ha2|Ha2]|];
      (destruct (le_lt_dec 65 (nat_of_ascii b)) as [Hb1|Hb1];
       [destruct (le_lt_dec (nat_of_ascii b) 90) as [Hb2|Hb2]|]).
    all: try (rewrite (lower_char_other a) in H by lia).
    all: try (rewrite (lower_char_other b) in H by lia).
    all: try (left; exact H).
    + left. apply nat_of_ascii_inj. apply (f_equal nat_of_ascii) in H.
      rewrite (lower_char_capital a (nat_of_ascii a - 65)) in H by lia.
      rewrite (lower_char_capital b (nat_of_ascii b - 65)) in H by lia.
      lia.
    + right; left. exists (nat_of_ascii a - 65).
      apply (f_equal nat_of_ascii) in H.
      rewrite (lower_char_capital a (nat_of_ascii a - 65)) in H by lia.
      repeat split; lia.
    + right; left. exists (nat_of_ascii a - 65).
      apply (f_equal nat_of_ascii) in H.
      rewrite (lower_char_capital a (nat_of_ascii a - 65)) in H by lia.
      repeat split; lia.
    + right; right. exists (nat_of_ascii b - 65).
      apply (f_equal nat_of_ascii) in H.
      rewrite (lower_char_capital b (nat_of_ascii b - 65)) in H by lia.
      repeat split; lia.
    + right; right. exists (nat_of_ascii b - 65).
      apply (f_equal nat_of_ascii) in H.
      rewrite (lower_char_capital b (nat_of_ascii b - 65)) in H by lia.
      repeat split; lia.
Qed.

Lemma same_ignoring_case_lower (s t : string) :
  same_ignoring_case s t <-> toLowerCase s = toLowerCase t.
Proof.
  split.
  - induction 1 as [|a b s t Hab _ IH]; [reflexivity|].
    cbn [toLowerCase]. apply same_letter_lower in Hab. now rewrite Hab, IH.
  - revert t; induction s as [|a s IH]; intros [|b t] H;
      cbn [toLowerCase] in H; try discriminate H.
    + constructor.
    + injection H as Hab H. constructor.
      * now apply same_letter_lower.
      * now apply IH.
Qed.

(** Searching a lower-case word in the lower-cased text is searching
    the word in the text with case ignored. *)
Lemma includes_toLowerCase (s word : string) :
  toLowerCase word = word ->
  includes (toLowerCase s) word = true <-> occurs_ignoring_case word s.
Proof.
  intros Hw. unfold occurs_ignoring_case. rewrite includes_spec. split.
  - intros [pre [post H]].
    apply toLowerCase_cut in H as [pre' [rest [-> [_ H]]]].
    apply toLowerCase_cut in H as [mid [post' [-> [H _]]]].
    exists pre', mid, post'. split; [reflexivity|].
    apply same_ignoring_case_lower. now rewrite Hw.
  - intros [pre [mid [post [-> H]]]].
    apply same_ignoring_case_lower in H. rewrite Hw in H.
    exists (toLowerCase pre), (toLowerCase post).
    now rewrite !toLowerCase_app, H.
Qed.

Example toLowerCase_sample :
  toLowerCase "a.TXT: ASCII Text, with CRLF" = "a.txt: ascii text, with crlf".
Proof. reflexivity. Qed.

Example split_sample :
  split LF ("a.txt" ++ nl ++ nl ++ "src/b.ts" ++ nl) = ["a.txt"; ""; "src/b.ts"; ""].
Proof. reflexivity. Qed.

Example trim_sample : trim ("  /repo " ++ nl) = "/repo".
Proof. reflexivity. Qed.

Example of_number_sample : of_number 42 = "42" /\ of_number 0 = "0".
Proof. split; reflexivity. Qed.

End JsFacts.

(* ================================================================= *)
(** ** Running the methods *)

Lemma append_assoc (a b c : string) : (a ++ b) ++ c = a ++ (b ++ c).
Proof.
  induction a as [|x a IH]; cbn [append]; [reflexivity | now rewrite IH].
Qed.

Lemma tick_add_trace e m : length (trace (add_trace e m)) = S (length (trace m)).
Proof. unfold add_trace; cbn [trace]. apply last_length. Qed.

Ltac machine_eq :=
  unfold after_iteration, caught, add_console, set_stats, set_fs, add_trace,
    set_repoRoot, out_line, err_line, section_of;
  try match goal with |- context [notFound ?e] => destruct (notFound e) end;
  cbn [outputFile stats repoRoot fs console trace it_path it_outcome
       it_events it_lines processed skipped count_outcome];
  rewrite <- ?app_assoc; reflexivity.

Ltac unfold_effects :=
  unfold incr_skipped, incr_processed, console_log, console_error;
  unfold bind, ret, get, modify.

Lemma isBinaryFile_run W p m :
  let r := command_output W (length (trace m)) "file" [p] in
  let m1 := add_trace (EvCommand "file" [p] r) m in
  isBinaryFile W p m =
  match r with
  | Ok o => (Return (binary_description (stdout o)), m1)
  | Err e =>
      (Return true,
       add_console (err_line Red ("Error checking file type: " ++ p ++ ": "
                                  ++ message e)) m1)
  end.
Proof.
  cbv zeta. unfold isBinaryFile, try_catch, bind, Deno_Command_output.
  destruct (command_output W (length (trace m)) "file" [p]) as [o|e]; reflexivity.
Qed.

Lemma formatFileContent_run W rel full m :
  let r := readTextFile W (length (trace m)) full in
  formatFileContent W rel full m =
  (match r with
   | Ok content => Return (file_section rel content)
   | Err e => Throw e
   end, add_trace (EvReadTextFile full r) m).
Proof.
  cbv zeta. unfold formatFileContent, bind, Deno_readTextFile.
  destruct (readTextFile W (length (trace m)) full); reflexivity.
Qed.

(** One turn of the loop always returns, and does what [iteration] says. *)
Lemma process_file_iteration W rel m :
  process_file W rel m =
  (Return tt,
   after_iteration
     (iteration W (length (trace m)) (outputFile m) rel
        (path_join W (repoRoot m) rel)) m).
Proof.
  unfold process_file, iteration.
  set (full := path_join W (repoRoot m) rel).
  unfold bind at 1. unfold get at 1. fold full.
  unfold try_catch, bind at 1, Deno_lstat.
  destruct (lstat W (length (trace m)) full) as [st|e] eqn:E1; cbn [settle].
  - destruct (isSymlink st) eqn:Esym.
    + unfold_effects. machine_eq.
    + unfold bind at 1. rewrite isBinaryFile_run, tick_add_trace.
      destruct (command_output W (S (length (trace m))) "file" [full])
        as [o|e] eqn:E2.
      * destruct (binary_description (stdout o)) eqn:Eb.
        -- unfold_effects. machine_eq.
        -- unfold bind at 1. rewrite formatFileContent_run, !tick_add_trace.
           destruct (readTextFile W (S (S (length (trace m)))) full)
             as [c|e] eqn:E3.
           ++ unfold bind, get, ret, Deno_writeTextFile.
              unfold add_trace; cbn [outputFile trace]; rewrite !last_length.
              destruct (writeTextFile_failure W
                          (S (S (S (length (trace m))))) (outputFile m))
                as [e|] eqn:E4; unfold_effects; machine_eq.
           ++ unfold_effects. machine_eq.
      * unfold_effects. machine_eq.
  - unfold_effects. machine_eq.
Qed.

Lemma after_iteration_outputFile it m : outputFile (after_iteration it m) = outputFile m.
Proof. reflexivity. Qed.

Lemma after_iteration_repoRoot it m : repoRoot (after_iteration it m) = repoRoot m.
Proof. reflexivity. Qed.

Lemma after_iteration_tick it m :
  length (trace (after_iteration it m)) = length (trace m) + length (it_events it).
Proof. unfold after_iteration; cbn [trace]. apply length_app. Qed.

(** The loop always returns, and does what [iterations] says. *)
Lemma for_of_process_file W files m :
  for_of files (process_file W) m =
  (Return tt,
   after_iterations
     (iterations W (length (trace m)) (outputFile m) (repoRoot m) files) m).
Proof.
  revert m; induction files as [|rel rest IH]; intros m.
  - reflexivity.
  - cbn [for_of iterations]. unfold bind. rewrite process_file_iteration.
    rewrite IH, after_iteration_tick. reflexivity.
Qed.

Lemma iterations_paths W t out root files :
  map it_path (iterations W t out root files) = files.
Proof.
  revert t; induction files as [|rel rest IH]; intros t; cbn [iterations map].
  - reflexivity.
  - rewrite IH. f_equal. unfold iteration, caught.
    repeat match goal with
           | |- context [match ?x with _ => _ end] => destruct x
           end; reflexivity.
Qed.

(* ================================================================= *)
(** ** The loop as a whole *)

Lemma after_iterations_cons it its m :
  after_iterations (it :: its) m = after_iterations its (after_iteration it m).
Proof. reflexivity. Qed.

Lemma after_iterations_outputFile its m :
  outputFile (after_iterations its m) = outputFile m.
Proof.
  revert m; induction its as [|it its IH]; intros m; [reflexivity|].
  rewrite after_iterations_cons, IH. reflexivity.
Qed.

Lemma after_iterations_repoRoot its m :
  repoRoot (after_iterations its m) = repoRoot m.
Proof.
  revert m; induction its as [|it its IH]; intros m; [reflexivity|].
  rewrite after_iterations_cons, IH. reflexivity.
Qed.

Lemma after_iterations_trace its m :
  trace (after_iterations its m) = (trace m ++ events_of its)%list.
Proof.
  revert m; induction its as [|it its IH]; intros m.
  - cbn. now rewrite app_nil_r.
  - rewrite after_iterations_cons, IH.
    unfold after_iteration, events_of; cbn [trace flat_map].
    now rewrite app_assoc.
Qed.

Lemma after_iterations_console its m :
  console (after_iterations its m) = (console m ++ flat_map it_lines its)%list.
Proof.
  revert m; induction its as [|it its IH]; intros m.
  - cbn. now rewrite app_nil_r.
  - rewrite after_iterations_cons, IH.
    unfold after_iteration; cbn [console flat_map].
    now rewrite app_assoc.
Qed.

Lemma count_outcomes_cons p it its :
  count_outcomes p (it :: its) =
  (if p (it_outcome it) then 1 else 0) + count_outcomes p its.
Proof.
  unfold count_outcomes; cbn [filter]. destruct (p (it_outcome it)); reflexivity.
Qed.

Lemma after_iterations_stats its m :
  stats (after_iterations its m) = tally its (stats m).
Proof.
  revert m; induction its as [|it its IH]; intros m; [reflexivity|].
  rewrite after_iterations_cons, IH. reflexivity.
Qed.

Lemma tally_counts its st :
  processed (tally its st) = processed st + count_outcomes is_processed its /\
  skipped (tally its st) = skipped st + count_outcomes is_skipped its.
Proof.
  revert st; induction its as [|it its IH]; intros st.
  - cbn. split; lia.
  - rewrite !count_outcomes_cons. change (tally (it :: its) st)
      with (tally its (count_outcome (it_outcome it) st)).
    destruct (IH (count_outcome (it_outcome it) st)) as [Hp Hs].
    rewrite Hp, Hs. destruct (it_outcome it); cbn; split; lia.
Qed.

(** Every turn falls in exactly one of the three buckets. *)
Lemma count_outcomes_total its :
  count_outcomes is_processed its + count_outcomes is_skipped its +
  count_outcomes is_errored its = length its.
Proof.
  induction its as [|it its IH]; [reflexivity|].
  rewrite !count_outcomes_cons. cbn [length].
  destruct (it_outcome it); cbn; lia.
Qed.

Lemma fs_write_append_same out data f old :
  f out = Some old ->
  fs_write out data true f out = Some (old ++ data).
Proof. intros H. unfold fs_write. now rewrite String.eqb_refl, H. Qed.

Lemma fs_write_other out data a f p :
  p <> out -> fs_write out data a f p = f p.
Proof.
  intros H. unfold fs_write. apply String.eqb_neq in H. now rewrite H.
Qed.

Lemma append_empty_r (a : string) : a ++ "" = a.
Proof. induction a as [|x a IH]; cbn [append]; [reflexivity | now rewrite IH]. Qed.

(** The loop only ever appends the sections of its processed files. *)
Lemma after_iterations_document its m old :
  fs m (outputFile m) = Some old ->
  fs (after_iterations its m) (outputFile m) = Some (old ++ document_body its).
Proof.
  revert m old; induction its as [|it its IH]; intros m old H.
  - cbn. now rewrite append_empty_r.
  - rewrite after_iterations_cons.
    change (outputFile m) with (outputFile (after_iteration it m)).
    cbn [document_body fold_right]. fold (document_body its).
    rewrite <- append_assoc. apply IH.
    unfold after_iteration, section_of; cbn [fs outputFile].
    destruct (it_outcome it); rewrite ?append_empty_r; try exact H.
    now apply fs_write_append_same.
Qed.

Lemma after_iterations_other_files its m p :
  p <> outputFile m -> fs (after_iterations its m) p = fs m p.
Proof.
  revert m; induction its as [|it its IH]; intros m H; [reflexivity|].
  rewrite after_iterations_cons, IH by exact H.
  unfold after_iteration; cbn [fs].
  destruct (it_outcome it); try reflexivity. now apply fs_write_other.
Qed.




Lemma iterations_length W t out root files :
  length (iterations W t out root files) = length files.
Proof. rewrite <- (iterations_paths W t out root files) at 2. now rewrite length_map. Qed.

(* ================================================================= *)
(** ** The run as a whole *)

Lemma checkGitRepo_run W m :
  let r := command_output W (length (trace m)) "git" ["rev-parse"; "--git-dir"] in
  checkGitRepo W m =
  (Return match r with Ok o => success o | Err _ => false end,
   add_trace (EvCommand "git" ["rev-parse"; "--git-dir"] r) m).
Proof.
  cbv zeta. unfold checkGitRepo, try_catch, bind, Deno_Command_output.
  destruct (command_output W (length (trace m)) "git" _); reflexivity.
Qed.

Lemma getRepoInfo_run W m :
  let t := length (trace m) in
  let r1 := command_output W t "git" ["rev-parse"; "--show-toplevel"] in
  let r2 := command_output W (S t) "git" ["branch"; "--show-current"] in
  let m1 := add_trace (EvCommand "git" ["rev-parse"; "--show-toplevel"] r1) m in
  let m2 := add_trace (EvCommand "git" ["branch"; "--show-current"] r2) m1 in
  getRepoInfo W m =
  match r1 with
  | Err e =>
      (Throw (new_Error ("Failed to get repository info: " ++ message e)), m1)
  | Ok o1 =>
      (match r2 with
       | Ok o2 => Return (Js.trim (stdout o1), Js.trim (stdout o2))
       | Err e =>
           Throw (new_Error ("Failed to get repository info: " ++ message e))
       end, m2)
  end.
Proof.
  cbv zeta. unfold getRepoInfo, try_catch, bind, Deno_Command_output.
  destruct (command_output W (length (trace m)) "git" _); [|reflexivity].
  unfold await at 1, ret at 1. rewrite tick_add_trace.
  destruct (command_output W (S (length (trace m))) "git" _); reflexivity.
Qed.

Lemma getTrackedFiles_run W m :
  let r := command_output W (length (trace m)) "git" ["ls-files"] in
  getTrackedFiles W m =
  (match r with
   | Ok o =>
       if success o then Return (tracked_lines (stdout o))
       else Throw (new_Error ("Git ls-files failed: " ++ stderr o))
   | Err e =>
       if notFound e then
         Throw (new_Error
           "Git executable not found. Please ensure git is installed and in your PATH")
       else Throw e
   end,
   add_trace (EvCommand "git" ["ls-files"] r) m).
Proof.
  cbv zeta. unfold getTrackedFiles, try_catch, bind, Deno_Command_output.
  destruct (command_output W (length (trace m)) "git" _) as [o|e].
  - unfold await, ret, throw. destruct (success o); reflexivity.
  - unfold await, ret, throw. destruct (notFound e); reflexivity.
Qed.

(** A run that returns went through every stage: the shape of its
    final machine. *)
Lemma generate_returns W m m' :
  generate W m = (Return tt, m') ->
  let t := length (trace m) in
  let out := outputFile m in
  let its := loop_of W m in
  let version := denojson_version W in
  let header :=
    header_text (date_toISOString W (3 + t)) (root_of W t) (branch_of W t)
      version in
  let iso' := date_toISOString W (6 + t + length (events_of its)) in
  let summary := summary_text (stats m') iso' version in
  outputFile m' = out /\
  stats m' = tally its (stats m) /\
  fs m' out = Some (header ++ document_body its ++ summary) /\
  (forall p, p <> out -> fs m' p = fs m p) /\
  trace m' =
    (trace m ++
     [EvCommand "git" ["rev-parse"; "--git-dir"]
        (command_output W t "git" ["rev-parse"; "--git-dir"]);
      EvCommand "git" ["rev-parse"; "--show-toplevel"]
        (command_output W (1 + t) "git" ["rev-parse"; "--show-toplevel"]);
      EvCommand "git" ["branch"; "--show-current"]
        (command_output W (2 + t) "git" ["branch"; "--show-current"]);
      EvDate (date_toISOString W (3 + t));
      EvWriteTextFile out header false None;
      EvCommand "git" ["ls-files"]
        (command_output W (5 + t) "git" ["ls-files"])] ++
     events_of its ++
     [EvDate iso'; EvWriteTextFile out summary true None])%list.
Proof.
  intros H. cbv zeta. unfold loop_of, root_of, branch_of, listed_files.
  cbn [Nat.add].
  unfold generate in H.
  unfold bind at 1 in H. rewrite checkGitRepo_run in H.
  destruct (command_output W (length (trace m)) "git" ["rev-parse"; "--git-dir"])
    as [o0|e0] eqn:E0;
    [destruct (success o0) eqn:S0|]; cbn [negb] in H;
    try (unfold bind, console_error, modify, Deno_exit in H; discriminate H).
  unfold bind at 1 2 in H. unfold ret at 1 in H.
  unfold bind at 1 in H. rewrite getRepoInfo_run, tick_add_trace in H.
  cbv zeta in H.
  destruct (command_output W (S (length (trace m))) "git"
              ["rev-parse"; "--show-toplevel"]) as [o1|e1] eqn:E1;
    [|discriminate H].
  destruct (command_output W (S (S (length (trace m)))) "git"
              ["branch"; "--show-current"]) as [o2|e2] eqn:E2;
    [|discriminate H].
  cbn [fst snd] in H.
  unfold bind at 1 in H. unfold modify at 1 in H.
  unfold bind at 1 in H. unfold get at 1 in H.
  unfold bind at 1 in H. unfold console_log at 1, modify at 1 in H.
  unfold bind at 1 in H. unfold new_Date_toISOString at 1 in H.
  unfold bind at 1 in H. unfold Deno_writeTextFile at 1 in H.
  unfold add_console, set_repoRoot, add_trace in H.
  cbn [outputFile stats repoRoot fs console trace] in H.
  rewrite !last_length in H.
  destruct (writeTextFile_failure W (S (S (S (S (length (trace m))))))
              (outputFile m)) as [e4|] eqn:E4; [discriminate H|].
  unfold bind at 1 in H. rewrite getTrackedFiles_run in H.
  unfold set_fs, add_trace in H.
  cbn [outputFile stats repoRoot fs console trace] in H.
  rewrite !last_length in H.
  destruct (command_output W (S (S (S (S (S (length (trace m))))))) "git"
              ["ls-files"]) as [o5|e5] eqn:E5;
    [destruct (success o5) eqn:S5; [|discriminate H]
    |destruct (notFound e5); discriminate H].
  unfold bind at 1 in H. rewrite for_of_process_file in H.
  cbn [outputFile stats repoRoot fs console trace] in H.
  rewrite !last_length in H.
  cbn [answer_stdout].
  match type of H with
  | context [after_iterations ?its0 ?m0] =>
      set (its := its0) in *; set (m6 := m0) in *
  end.
  unfold bind at 1 in H. unfold new_Date_toISOString at 1 in H.
  unfold bind at 1 in H. unfold get at 1 in H.
  unfold bind at 1 in H. unfold Deno_writeTextFile at 1 in H.
  unfold add_trace in H.
  cbn [outputFile stats repoRoot fs console trace] in H.
  rewrite !last_length in H.
  rewrite (after_iterations_trace its m6) in H.
  rewrite (after_iterations_outputFile its m6) in H.
  rewrite (after_iterations_repoRoot its m6) in H.
  rewrite length_app in H.
  replace (length (trace m6)) with (6 + length (trace m)) in H
    by (subst m6; cbn [trace]; rewrite !length_app; cbn [length]; lia).
  subst m6; cbn [outputFile stats repoRoot fs console trace] in H.
  match type of H with
  | context [writeTextFile_failure W ?n ?p] =>
      destruct (writeTextFile_failure W n p) as [e9|] eqn:E9
  end; [discriminate H|].
  unfold console_log in H. unfold bind, modify in H.
  unfold add_console, set_fs in H.
  cbn [outputFile stats repoRoot fs console trace] in H.
  injection H as <-.
  cbn [outputFile stats repoRoot fs console trace].
  match goal with
  | |- context [after_iterations its ?m0] => set (m6 := m0) in *
  end.
  assert (Hdoc : fs (after_iterations its m6) (outputFile m) =
                 Some (header_text
                         (date_toISOString W (S (S (S (length (trace m))))))
                         (Js.trim (stdout o1)) (Js.trim (stdout o2))
                         (denojson_version W) ++ document_body its)).
  { apply (after_iterations_document its m6).
    subst m6; cbn [fs outputFile]. unfold fs_write.
    now rewrite String.eqb_refl. }
  repeat split.
  - exact (after_iterations_stats its m6).
  - rewrite (fs_write_append_same _ _ _ _ Hdoc). now rewrite append_assoc.
  - intros p Hp. rewrite fs_write_other by exact Hp.
    rewrite (after_iterations_other_files its m6) by exact Hp.
    subst m6; cbn [fs]. now apply fs_write_other.
  - rewrite <- !app_assoc. reflexivity.
Qed.

(** The scenario of the specification: of a.txt (text), img.png
    (binary) and link.txt (a symbolic link), only a.txt gets a section. *)
Example three_files_run :
  let run := generate Demo.three_files Demo.fresh in
  fst run = Return tt /\
  stats (snd run) = {| processed := 1; skipped := 2 |} /\
  fs (snd run) "repo_context.txt" =
    Some ("Repository Context Generated on 2024-01-31T12:00:00.000Z" ++ Js.nl ++
          "Repository Root: /repo" ++ Js.nl ++
          "Current Branch: main" ++ Js.nl ++
          "Generator Version: 1.0.0" ++ Js.nl ++
          Js.nl ++ "---" ++ Js.nl ++
          Js.nl ++ "=== File: a.txt ===" ++ Js.nl ++
          Js.nl ++ "hello" ++ Js.nl ++
          Js.nl ++ "=== End: a.txt ===" ++ Js.nl ++
          Js.nl ++ "=== Summary ===" ++ Js.nl ++
          Js.nl ++ "Files processed: 1" ++ Js.nl ++
          "Files skipped: 2 (binary, symlinks, or missing)" ++ Js.nl ++
          "Generated on: 2024-01-31T12:00:00.000Z" ++ Js.nl ++
          "Generator Version: 1.0.0").
Proof. cbv zeta. repeat split; vm_compute; reflexivity. Qed.

(* ================================================================= *)
(** ** Properties of the per-file loop *)

(** A turn that returns hands over to the rest of the loop. *)
Lemma for_of_continue {A} (body : A -> M unit) x rest m m' :
  body x m = (Return tt, m') ->
  for_of (x :: rest) body m = for_of rest body m'.
Proof. intros H. cbn [for_of]. unfold bind. now rewrite H. Qed.





(** C2 (as amended).  [formatFileContent] reads the file itself; what
    it returns is the section text of the relative path and of the
    content it read, and it touches neither the counters, the files nor
    the console.  Two calls that read the same content for the same
    relative path return the same text. *)
Theorem formatFileContent_depends_on_content_read
    W1 W2 rel full1 full2 m1 m2 content :
  readTextFile W1 (length (trace m1)) full1 = Ok content ->
  readTextFile W2 (length (trace m2)) full2 = Ok content ->
  fst (formatFileContent W1 rel full1 m1) = Return (file_section rel content) /\
  fst (formatFileContent W1 rel full1 m1) = fst (formatFileContent W2 rel full2 m2) /\
  stats (snd (formatFileContent W1 rel full1 m1)) = stats m1 /\
  fs (snd (formatFileContent W1 rel full1 m1)) = fs m1 /\
  console (snd (formatFileContent W1 rel full1 m1)) = console m1 /\
  trace (snd (formatFileContent W1 rel full1 m1)) =
    (trace m1 ++ [EvReadTextFile full1 (Ok content)])%list.
Proof.
  intros H1 H2. rewrite !formatFileContent_run. cbv zeta.
  rewrite H1, H2. repeat split.
Qed.

Lemma formatFileContent_depends_on_content_read_witness :
  readTextFile Demo.three_files 0 "/repo/a.txt" = Ok "hello" /\
  fst (formatFileContent Demo.three_files "a.txt" "/repo/a.txt" Demo.in_loop) =
    Return (file_section "a.txt" "hello").
Proof.
  split; [reflexivity|].
  exact (proj1 (formatFileContent_depends_on_content_read
                  Demo.three_files Demo.three_files "a.txt"
                  "/repo/a.txt" "/repo/a.txt" Demo.in_loop Demo.in_loop
                  "hello" eq_refl eq_refl)).
Defined.

(** C2, as the specification words it, fails: called twice with the
    same arguments while the file changes in between, the formatter
    returns two different texts. *)
Lemma formatFileContent_twice_differs :
  fst (Demo.format_twice Demo.changing "a.txt" "/repo/a.txt" Demo.in_loop) =
    Return (file_section "a.txt" "first", file_section "a.txt" "second") /\
  file_section "a.txt" "first" <> file_section "a.txt" "second".
Proof.
  split; [reflexivity|]. vm_compute. discriminate.
Qed.

(** C3.  When the call of file(1) itself fails, [isBinaryFile] answers
    true, so the turn counts the file as skipped: it returns, the loop
    goes on, the file is never read and nothing is written. *)
Theorem classifier_failure_is_skipped W rel rest m st e :
  let full := path_join W (repoRoot m) rel in
  lstat W (length (trace m)) full = Ok st ->
  isSymlink st = false ->
  command_output W (S (length (trace m))) "file" [full] = Err e ->
  exists m',
    fst (isBinaryFile W full (add_trace (EvLstat full (Ok st)) m)) = Return true /\
    process_file W rel m = (Return tt, m') /\
    for_of (rel :: rest) (process_file W) m = for_of rest (process_file W) m' /\
    skipped (stats m') = S (skipped (stats m)) /\
    processed (stats m') = processed (stats m) /\
    fs m' = fs m /\
    trace m' =
      (trace m ++ [EvLstat full (Ok st); EvCommand "file" [full] (Err e)])%list /\
    console m' =
      (console m ++
       [err_line Red ("Error checking file type: " ++ full ++ ": " ++ message e);
        out_line Yellow ("Skipped binary file: " ++ rel)])%list.
Proof.
  intros full H1 Hs H2.
  pose proof (process_file_iteration W rel m) as Hrun.
  fold full in Hrun. unfold iteration in Hrun. rewrite H1, Hs, H2 in Hrun.
  eexists. split; [|split; [exact Hrun|]].
  - rewrite isBinaryFile_run, tick_add_trace. cbv zeta. now rewrite H2.
  - split; [now apply for_of_continue|]. repeat split.
Qed.

Lemma classifier_failure_is_skipped_witness :
  lstat Demo.no_file_tool 0 "/repo/a.txt" = Demo.regular /\
  command_output Demo.no_file_tool 1 "file" ["/repo/a.txt"] = Err Demo.no_tool /\
  exists m',
    process_file Demo.no_file_tool "a.txt" Demo.in_loop = (Return tt, m') /\
    stats m' = {| processed := 0; skipped := 1 |}.
Proof.
  split; [reflexivity|]. split; [reflexivity|].
  destruct (classifier_failure_is_skipped Demo.no_file_tool "a.txt" []
              Demo.in_loop
              {| isFile := true; isDirectory := false; isSymlink := false |}
              Demo.no_tool eq_refl eq_refl eq_refl)
    as [m' [_ [Hrun [_ [Hs [Hp _]]]]]].
  exists m'. split; [exact Hrun|].
  destruct (stats m') as [p s]. cbn in Hs, Hp. now rewrite Hs, Hp.
Defined.

(* ================================================================= *)
(** ** Properties of a whole run *)



Lemma iteration_appended W t out rel full :
  let it := iteration W t out rel full in
  length (filter is_appended (it_events it)) =
  if is_processed (it_outcome it) then 1 else 0.
Proof.
  cbv zeta. unfold iteration, caught.
  destruct (lstat W t full) as [st|e1];
    [destruct (isSymlink st)|destruct (notFound e1)]; try reflexivity.
  destruct (command_output W (S t) "file" [full]) as [o|e2];
    [destruct (binary_description (stdout o))|]; try reflexivity.
  destruct (readTextFile W (S (S t)) full) as [content|e3];
    [|destruct (notFound e3)]; try reflexivity.
  destruct (writeTextFile_failure W (S (S (S t))) out) as [e4|];
    [destruct (notFound e4)|]; reflexivity.
Qed.

Lemma iterations_appended W t out root files :
  let its := iterations W t out root files in
  length (filter is_appended (events_of its)) = count_outcomes is_processed its.
Proof.
  cbv zeta. revert t; induction files as [|rel rest IH]; intros t.
  - reflexivity.
  - cbn [iterations]. rewrite count_outcomes_cons.
    unfold events_of; cbn [flat_map]. rewrite filter_app, length_app.
    fold (events_of (iterations W
            (t + length (it_events (iteration W t out rel (path_join W root rel))))
            out root rest)).
    rewrite IH, iteration_appended. reflexivity.
Qed.

(** C5 (as amended).  After the loop of a run that completes, the
    processed, skipped and errored files add up to the tracked files:
    processed + skipped never exceeds their number and equals it exactly
    when no per-file error occurred.  The processed counter is the number
    of files classified as text, read and appended to the document. *)
Theorem counters_add_up W out files0 m' :
  generate W (new_RepoContextGenerator out files0) = (Return tt, m') ->
  let its := loop_of W (new_RepoContextGenerator out files0) in
  let total := length (listed_files W 0) in
  processed (stats m') + skipped (stats m') + count_outcomes is_errored its
    = total /\
  processed (stats m') + skipped (stats m') <= total /\
  (count_outcomes is_errored its = 0 <->
   processed (stats m') + skipped (stats m') = total) /\
  processed (stats m') = count_outcomes is_processed its /\
  processed (stats m') = length (filter is_appended (events_of its)).
Proof.
  intros H its total.
  destruct (generate_returns W _ _ H) as [_ [Hst _]].
  fold its in Hst.
  destruct (tally_counts its (stats (new_RepoContextGenerator out files0)))
    as [Hp Hs].
  rewrite <- Hst in Hp, Hs. cbn in Hp, Hs.
  pose proof (count_outcomes_total its) as Htot.
  assert (Hlen : length its = total).
  { unfold its, loop_of. now rewrite iterations_length. }
  assert (Happ : length (filter is_appended (events_of its)) =
                 count_outcomes is_processed its)
    by apply iterations_appended.
  repeat split; lia.
Qed.

Lemma counters_add_up_witness :
  exists m',
    generate Demo.three_files Demo.fresh = (Return tt, m') /\
    processed (stats m') + skipped (stats m') = 3.
Proof.
  exists (snd (generate Demo.three_files Demo.fresh)).
  assert (H : generate Demo.three_files Demo.fresh =
              (Return tt, snd (generate Demo.three_files Demo.fresh)))
    by (vm_compute; reflexivity).
  split; [exact H|].
  destruct (counters_add_up Demo.three_files "repo_context.txt"
              (fun _ => None) _ H) as [_ [_ [[Heq _] _]]].
  exact (Heq eq_refl).
Defined.

(** C5, as the specification words it, fails when an append is
    refused: a.txt is classified as text and read, yet the processed
    counter stays at zero. *)
Lemma read_but_not_counted :
  let run := generate Demo.append_refused Demo.fresh in
  fst run = Return tt /\
  listed_files Demo.append_refused 0 = ["a.txt"] /\
  events_of (loop_of Demo.append_refused Demo.fresh) =
    [EvLstat "/repo/a.txt" Demo.regular;
     EvCommand "file" ["/repo/a.txt"] (Demo.describe_text "/repo/a.txt");
     EvReadTextFile "/repo/a.txt" (Ok "hello");
     EvWriteTextFile "repo_context.txt" (file_section "a.txt" "hello") true
       (Some Demo.denied)] /\
  binary_description ("/repo/a.txt" ++ ": ASCII text") = false /\
  length (filter is_successful_read (trace (snd run))) = 1 /\
  processed (stats (snd run)) = 0.
Proof.
  cbv zeta. repeat split; vm_compute; reflexivity.
Qed.

(** C6.  When [git rev-parse --git-dir] cannot be run or reports
    failure, [generate] prints the error and exits with status 1 before
    any write: no file is created or modified. *)
Theorem not_a_repository_exits_before_writing W m :
  match command_output W (length (trace m)) "git" ["rev-parse"; "--git-dir"] with
  | Ok o => success o = false
  | Err _ => True
  end ->
  exists m',
    generate W m = (Exit 1, m') /\
    fs m' = fs m /\
    filter is_write (trace m') = filter is_write (trace m) /\
    trace m' =
      (trace m ++
       [EvCommand "git" ["rev-parse"; "--git-dir"]
          (command_output W (length (trace m)) "git" ["rev-parse"; "--git-dir"]);
        EvExit 1])%list /\
    console m' =
      (console m ++ [err_line Red "Error: Not a git repository"])%list.
Proof.
  intros H. unfold generate. unfold bind at 1. rewrite checkGitRepo_run.
  assert (Hfalse :
    match command_output W (length (trace m)) "git" ["rev-parse"; "--git-dir"] with
    | Ok o => success o
    | Err _ => false
    end = false).
  { destruct (command_output W (length (trace m)) "git" _); [exact H | reflexivity]. }
  rewrite Hfalse. cbn [negb].
  unfold bind, console_error, modify, Deno_exit.
  eexists. split; [reflexivity|].
  unfold add_console, add_trace; cbn [fs trace console].
  repeat split.
  - rewrite <- app_assoc, filter_app. cbn [app filter is_write].
    now rewrite app_nil_r.
  - now rewrite <- app_assoc.
Qed.

Lemma not_a_repository_exits_before_writing_witness :
  command_output Demo.not_a_repo 0 "git" ["rev-parse"; "--git-dir"] =
    Demo.answer false 128 "" /\
  exists m',
    generate Demo.not_a_repo Demo.fresh = (Exit 1, m') /\
    fs m' "repo_context.txt" = None.
Proof.
  split; [reflexivity|].
  destruct (not_a_repository_exits_before_writing Demo.not_a_repo Demo.fresh
              eq_refl) as [m' [Hrun [Hfs _]]].
  exists m'. split; [exact Hrun|]. now rewrite Hfs.
Defined.

(* ================================================================= *)
(** ** Properties of the classification *)

Lemma binary_description_spec (result : string) :
  binary_description result = false <->
  occurs_ignoring_case "text" result \/ occurs_ignoring_case "empty" result.
Proof.
  unfold binary_description.
  rewrite <- !JsFacts.includes_toLowerCase by reflexivity.
  destruct (Js.includes (Js.toLowerCase result) "text");
    destruct (Js.includes (Js.toLowerCase result) "empty"); cbn;
    intuition congruence.
Qed.

(** C7.  Given the description printed by file(1), [isBinaryFile]
    answers false (text) exactly when the description contains "text" or
    "empty", letter case ignored, and true (binary) otherwise. *)
Theorem text_iff_description_mentions_text_or_empty W path m o :
  command_output W (length (trace m)) "file" [path] = Ok o ->
  (fst (isBinaryFile W path m) = Return false <->
   occurs_ignoring_case "text" (stdout o) \/
   occurs_ignoring_case "empty" (stdout o)) /\
  (fst (isBinaryFile W path m) = Return true <->
   ~ (occurs_ignoring_case "text" (stdout o) \/
      occurs_ignoring_case "empty" (stdout o))) /\
  (fst (isBinaryFile W path m) = Return false \/
   fst (isBinaryFile W path m) = Return true).
Proof.
  intros H. rewrite isBinaryFile_run. cbv zeta. rewrite H. cbn [fst].
  pose proof (binary_description_spec (stdout o)) as Hspec.
  destruct (binary_description (stdout o)); repeat split.
  - intros H'. discriminate H'.
  - intros H'. apply Hspec in H'. discriminate H'.
  - intros _ H'. apply Hspec in H'. discriminate H'.
  - now right.
  - intros _. now apply Hspec.
  - intros H'. discriminate H'.
  - intros H'. exfalso. apply H'. now apply Hspec.
  - now left.
Qed.

Lemma text_iff_description_mentions_text_or_empty_witness :
  command_output Cases.capitals 1 "file" ["/repo/CONTEXT.BIN"] =
    Demo.answer true 0 "/repo/CONTEXT.BIN: data" /\
  occurs_ignoring_case "text" "/repo/CONTEXT.BIN: data" /\
  fst (isBinaryFile Cases.capitals "/repo/CONTEXT.BIN"
         (add_trace (EvLstat "/repo/CONTEXT.BIN" Demo.regular) Demo.in_loop)) =
    Return false.
Proof.
  assert (Hocc : occurs_ignoring_case "text" "/repo/CONTEXT.BIN: data").
  { exists "/repo/CON", "TEXT", ".BIN: data". split; [reflexivity|].
    constructor; [right; left; exists 19; repeat split; lia|].
    constructor; [right; left; exists 4; repeat split; lia|].
    constructor; [right; left; exists 23; repeat split; lia|].
    constructor; [right; left; exists 19; repeat split; lia|].
    constructor. }
  split; [reflexivity|]. split; [exact Hocc|].
  apply (text_iff_description_mentions_text_or_empty Cases.capitals
           "/repo/CONTEXT.BIN"
           (add_trace (EvLstat "/repo/CONTEXT.BIN" Demo.regular) Demo.in_loop)
           _ eq_refl).
  left. exact Hocc.
Defined.

(** C8.  A path that [lstat] reports as a symbolic link is counted as
    skipped at once: [lstat] is the only request made for it, so its
    content is never read, whatever the link points to. *)
Theorem symlink_is_skipped_unread W rel rest m st :
  let full := path_join W (repoRoot m) rel in
  lstat W (length (trace m)) full = Ok st ->
  isSymlink st = true ->
  exists m',
    process_file W rel m = (Return tt, m') /\
    for_of (rel :: rest) (process_file W) m = for_of rest (process_file W) m' /\
    skipped (stats m') = S (skipped (stats m)) /\
    processed (stats m') = processed (stats m) /\
    trace m' = (trace m ++ [EvLstat full (Ok st)])%list /\
    filter is_read (trace m') = filter is_read (trace m) /\
    fs m' = fs m /\
    console m' = (console m ++ [out_line Yellow ("Skipped symlink: " ++ rel)])%list.
Proof.
  intros full H1 Hs.
  pose proof (process_file_iteration W rel m) as Hrun.
  fold full in Hrun. unfold iteration in Hrun. rewrite H1, Hs in Hrun.
  eexists. split; [exact Hrun|]. split; [now apply for_of_continue|].
  unfold after_iteration; cbn [stats trace fs console it_outcome it_events
                               it_lines count_outcome processed skipped].
  repeat split.
  rewrite filter_app. cbn [filter is_read]. now rewrite app_nil_r.
Qed.

Lemma symlink_is_skipped_unread_witness :
  lstat Demo.three_files 0 "/repo/link.txt" = Demo.link /\
  exists m',
    process_file Demo.three_files "link.txt" Demo.in_loop = (Return tt, m') /\
    filter is_read (trace m') = [] /\
    skipped (stats m') = 1.
Proof.
  split; [reflexivity|].
  destruct (symlink_is_skipped_unread Demo.three_files "link.txt" []
              Demo.in_loop
              {| isFile := false; isDirectory := false; isSymlink := true |}
              eq_refl eq_refl) as [m' [Hrun [_ [Hs [_ [_ [Hr _]]]]]]].
  exists m'. split; [exact Hrun|]. split; [exact Hr | exact Hs].
Defined.

(** C9.  The verdict of [isBinaryFile] depends on the standard output
    of file(1) alone: two answers with the same output give the same
    verdict, and an answer that reports failure but mentions "text" or
    "empty" still yields text. *)
Theorem verdict_ignores_exit_status W1 W2 path1 path2 m1 m2 o1 o2 :
  command_output W1 (length (trace m1)) "file" [path1] = Ok o1 ->
  command_output W2 (length (trace m2)) "file" [path2] = Ok o2 ->
  stdout o1 = stdout o2 ->
  fst (isBinaryFile W1 path1 m1) = fst (isBinaryFile W2 path2 m2) /\
  (success o1 = false ->
   occurs_ignoring_case "text" (stdout o1) \/
   occurs_ignoring_case "empty" (stdout o1) ->
   fst (isBinaryFile W1 path1 m1) = Return false).
Proof.
  intros H1 H2 Hout. rewrite !isBinaryFile_run. cbv zeta.
  rewrite H1, H2, Hout. split; [reflexivity|].
  intros _ Hocc. cbn [fst]. f_equal.
  apply binary_description_spec. exact Hocc.
Qed.

Lemma verdict_ignores_exit_status_witness :
  command_output Demo.failing_status 1 "file" ["/repo/a.txt"] =
    Demo.answer false 1 "/repo/a.txt: ASCII text" /\
  command_output Demo.three_files 1 "file" ["/repo/a.txt"] =
    Demo.answer true 0 "/repo/a.txt: ASCII text" /\
  fst (isBinaryFile Demo.failing_status "/repo/a.txt"
         (add_trace (EvLstat "/repo/a.txt" Demo.regular) Demo.in_loop)) =
    Return false.
Proof.
  split; [reflexivity|]. split; [reflexivity|].
  refine (proj2 (verdict_ignores_exit_status Demo.failing_status
                   Demo.three_files "/repo/a.txt" "/repo/a.txt"
                   (add_trace (EvLstat "/repo/a.txt" Demo.regular) Demo.in_loop)
                   (add_trace (EvLstat "/repo/a.txt" Demo.regular) Demo.in_loop)
                   _ _ eq_refl eq_refl eq_refl) eq_refl _).
  left. exists "/repo/a.txt: ASCII ", "text", "".
  split; [reflexivity | repeat constructor].
Defined.



(* ================================================================= *)
(** ** More facts about strings: trimming and line splitting *)

Lemma length_append (a b : string) :
  String.length (a ++ b) = String.length a + String.length b.
Proof. induction a as [|c a IH]; cbn; [reflexivity | now rewrite IH]. Qed.

Lemma append_cancel_l (a x y : string) : a ++ x = a ++ y -> x = y.
Proof.
  induction a as [|c a IH]; cbn [append]; intros H; [exact H|].
  injection H as H. now apply IH.
Qed.

Lemma append_cancel_r (a x y : string) : x ++ a = y ++ a -> x = y.
Proof.
  revert y; induction x as [|c x IH]; intros [|d y] H; cbn [append] in H.
  - reflexivity.
  - apply (f_equal String.length) in H. cbn in H. rewrite length_append in H. lia.
  - apply (f_equal String.length) in H. cbn in H. rewrite length_append in H. lia.
  - injection H as -> H. f_equal. now apply IH.
Qed.

Module TrimFacts.
Import Js.






Lemma trimStart_eq (s : string) :
  trimStart s =
  match white_head s with
  | Some r => trimStart r
  | None => s
  end.
Proof.
  destruct s as [|a s1]; [reflexivity|]. cbn [trimStart white_head].
  destruct (white_space_1 a); [reflexivity|].
  destruct s1 as [|b s2]; [reflexivity|].
  destruct (white_space_2 a b); [reflexivity|].
  destruct s2 as [|c s3]; [reflexivity|].
  destruct (white_space_3 a b c); reflexivity.
Qed.

Lemma only_spaces_eq (s : string) :
  only_spaces s =
  match s with
  | EmptyString => true
  | _ => match white_head s with
         | Some r => only_spaces r
         | None => false
         end
  end.
Proof.
  destruct s as [|a s1]; [reflexivity|]. cbn [only_spaces white_head].
  destruct (white_space_1 a); [reflexivity|].
  destruct s1 as [|b s2]; [reflexivity|].
  destruct (white_space_2 a b); [reflexivity|].
  destruct s2 as [|c s3]; [reflexivity|].
  destruct (white_space_3 a b c); reflexivity.
Qed.

Lemma white_head_split (s r : string) :
  white_head s = Some r ->
  exists tok, s = tok ++ r /\ is_white_space tok = true.
Proof.
  destruct s as [|a s1]; cbn [white_head]; [discriminate|].
  destruct (white_space_1 a) eqn:E1.
  { intros H; injection H as <-. exists (String a ""). now split. }
  destruct s1 as [|b s2]; [discriminate|].
  destruct (white_space_2 a b) eqn:E2.
  { intros H; injection H as <-. exists (String a (String b "")). now split. }
  destruct s2 as [|c s3]; [discriminate|].
  destruct (white_space_3 a b c) eqn:E3; [|discriminate].
  intros H; injection H as <-.
  exists (String a (String b (String c ""))). now split.
Qed.

Lemma white_head_length (s r : string) :
  white_head s = Some r -> String.length r < String.length s.
Proof.
  intros H. destruct (white_head_split s r H) as [tok [-> Htok]].
  rewrite length_append. destruct tok; [discriminate Htok | cbn; lia].
Qed.

Lemma white_head_of_white (tok x : string) :
  is_white_space tok = true -> white_head (tok ++ x) <> None.
Proof.
  destruct tok as [|a [|b [|c [|d tok]]]]; cbn [is_white_space append];
    try discriminate; intros H; cbn [white_head].
  - rewrite H. discriminate.
  - destruct (white_space_1 a); [discriminate|]. rewrite H. discriminate.
  - destruct (white_space_1 a); [discriminate|].
    destruct (white_space_2 a b); [discriminate|]. rewrite H. discriminate.
Qed.

(** Induction along the white space characters a string begins with. *)
Lemma white_ind (P : string -> Prop) :
  (forall s, (forall r, white_head s = Some r -> P r) -> P s) ->
  forall s, P s.
Proof.
  intros Hstep s.
  assert (H : forall n s, String.length s < n -> P s).
  { induction n as [|n IH]; intros s0 Hlen; [lia|].
    apply Hstep. intros r Hr. apply IH.
    pose proof (white_head_length s0 r Hr). lia. }
  apply (H (S (String.length s))). lia.
Qed.


(** [trimStart] stops at the first character that is no white space. *)
Lemma trimStart_spec (s : string) :
  white_head (trimStart s) = None /\
  (trimStart s = "" <-> only_spaces s = true).
Proof.
  induction s as [s IH] using white_ind.
  rewrite trimStart_eq, only_spaces_eq.
  destruct s as [|a s1]; [now split|].
  destruct (white_head (String a s1)) as [r|] eqn:E.
  - now apply IH.
  - split; [exact E|]. split; discriminate.
Qed.




Lemma ends_clean_trimEnd (s : string) : ends_clean (trimEnd s) = true.
Proof.
  induction s as [|a s IH]; cbn [trimEnd]; [reflexivity|]. cbv zeta.
  destruct (is_white_space (String a (trimEnd s))) eqn:E; [reflexivity|].
  cbn [ends_clean]. now rewrite E, IH.
Qed.

Lemma trimEnd_prefix (s : string) : exists x, s = trimEnd s ++ x.
Proof.
  induction s as [|a s [x IH]]; [now exists ""|].
  cbn [trimEnd]. cbv zeta.
  destruct (is_white_space (String a (trimEnd s))).
  - now exists (String a s).
  - exists x. cbn [append]. now rewrite <- IH.
Qed.

Lemma trimEnd_nonempty (t : string) :
  white_head t = None -> t <> "" -> trimEnd t <> "".
Proof.
  intros Hhead Hne. destruct t as [|a t]; [now destruct Hne|].
  cbn [trimEnd]. cbv zeta.
  destruct (is_white_space (String a (trimEnd t))) eqn:E; [|discriminate].
  exfalso. destruct (trimEnd_prefix t) as [x Hx].
  apply (white_head_of_white _ x E). cbn [append]. now rewrite <- Hx.
Qed.

Lemma white_head_trimEnd (t : string) :
  white_head t = None -> white_head (trimEnd t) = None.
Proof.
  intros Hhead. destruct (white_head (trimEnd t)) as [r|] eqn:E; [|reflexivity].
  exfalso. destruct (white_head_split _ _ E) as [tok [Htok Hw]].
  destruct (trimEnd_prefix t) as [x Hx].
  apply (white_head_of_white tok (r ++ x) Hw).
  rewrite <- append_assoc, <- Htok, <- Hx. exact Hhead.
Qed.

(** [trim] gives the empty string exactly on white space. *)
Lemma trim_empty_iff (s : string) : trim s = "" <-> only_spaces s = true.
Proof.
  unfold trim. destruct (trimStart_spec s) as [Hhead Hiff]. split.
  - intros H. apply Hiff.
    destruct (string_dec (trimStart s) "") as [E|E]; [exact E|].
    now destruct (trimEnd_nonempty _ Hhead E).
  - intros H. apply Hiff in H. now rewrite H.
Qed.

(** A trimmed string neither begins nor ends with white space. *)
Lemma trim_is_clean (s : string) :
  starts_clean (trim s) = true /\ ends_clean (trim s) = true.
Proof.
  split; [|apply ends_clean_trimEnd].
  unfold starts_clean, trim.
  now rewrite (white_head_trimEnd _ (proj1 (trimStart_spec s))).
Qed.




Lemma LF_is_space : white_space_1 LF = true.
Proof. reflexivity. Qed.

Example trim_no_break_space :
  trim (Cases.nbsp ++ " /srv/my repo" ++ Cases.nbsp ++ nl) = "/srv/my repo" /\
  trim (Cases.nbsp ++ nl ++ Cases.nbsp) = "" /\
  only_spaces Cases.nbsp = true.
Proof. repeat split. Qed.



(** No line produced by [split] contains the separator. *)
Lemma split_lines_have_no_LF (s : string) :
  Forall (fun line => has_char LF line = false) (split LF s).
Proof.
  induction s as [|c s IH]; cbn [split].
  - repeat constructor.
  - destruct (Ascii.eqb c LF) eqn:Hc.
    + constructor; [reflexivity | exact IH].
    + destruct (split LF s) as [|h t].
      * constructor; [|constructor]. cbn [has_char]. now rewrite Hc.
      * inversion IH as [|? ? Hh Ht]; subst.
        constructor; [|exact Ht]. cbn [has_char]. now rewrite Hc.
Qed.

End TrimFacts.

(* ================================================================= *)
(** ** The repository inspector: [checkGitRepo], [getRepoInfo],
       [getTrackedFiles] *)

(** X1.  [checkGitRepo] never throws: it makes one request, prints
    nothing, and answers true exactly when git could be run and
    reported success. *)
Theorem checkGitRepo_never_throws W m :
  let r := command_output W (length (trace m)) "git" ["rev-parse"; "--git-dir"] in
  exists b,
    checkGitRepo W m =
      (Return b, add_trace (EvCommand "git" ["rev-parse"; "--git-dir"] r) m) /\
    (b = true <-> exists o, r = Ok o /\ success o = true).
Proof.
  cbv zeta. rewrite checkGitRepo_run. eexists. split; [reflexivity|].
  destruct (command_output W (length (trace m)) "git" _) as [o|e]; split.
  - intros H. now exists o.
  - intros [o' [H1 H2]]. now injection H1 as ->.
  - discriminate.
  - intros [o' [H1 _]]. discriminate H1.
Qed.

(** X2.  When a query of [getRepoInfo] cannot be started, what is
    thrown is a plain error, never a NotFound, whose message is the
    cause's behind a fixed prefix, and no file is touched.  If it is the
    first query that fails, the second is never requested; if it is the
    second, both were requested. *)
Theorem getRepoInfo_failure_is_wrapped W m e :
  let t := length (trace m) in
  let r1 := command_output W t "git" ["rev-parse"; "--show-toplevel"] in
  let r2 := command_output W (S t) "git" ["branch"; "--show-current"] in
  let wrapped :=
    new_Error ("Failed to get repository info: " ++ message e) in
  (r1 = Err e ->
     exists m',
       getRepoInfo W m = (Throw wrapped, m') /\
       trace m' =
         (trace m ++
          [EvCommand "git" ["rev-parse"; "--show-toplevel"] (Err e)])%list /\
       fs m' = fs m /\ console m' = console m) /\
  (forall o, r1 = Ok o -> r2 = Err e ->
     exists m',
       getRepoInfo W m = (Throw wrapped, m') /\
       trace m' =
         (trace m ++
          [EvCommand "git" ["rev-parse"; "--show-toplevel"] (Ok o);
           EvCommand "git" ["branch"; "--show-current"] (Err e)])%list /\
       fs m' = fs m /\ console m' = console m) /\
  notFound wrapped = false.
Proof.
  cbv zeta. split; [|split; [|reflexivity]].
  - intros H1. rewrite getRepoInfo_run. cbv zeta. rewrite H1.
    eexists. split; [reflexivity|]. repeat split.
  - intros o H1 H2. rewrite getRepoInfo_run. cbv zeta. rewrite H1, H2.
    eexists. split; [reflexivity|].
    unfold add_trace; cbn [trace fs console]. rewrite <- app_assoc.
    repeat split.
Qed.

Lemma getRepoInfo_failure_is_wrapped_witness :
  command_output Cases.no_git_for_info 0 "git" ["rev-parse"; "--show-toplevel"]
    = Err Cases.spawn_failed /\
  exists m',
    getRepoInfo Cases.no_git_for_info Demo.fresh =
      (Throw (new_Error
         "Failed to get repository info: Failed to spawn 'git': entity not found"),
       m') /\
    trace m' =
      [EvCommand "git" ["rev-parse"; "--show-toplevel"] (Err Cases.spawn_failed)].
Proof.
  split; [reflexivity|].
  destruct (proj1 (getRepoInfo_failure_is_wrapped Cases.no_git_for_info
                     Demo.fresh Cases.spawn_failed) eq_refl)
    as [m' [Hrun [Htr _]]].
  exists m'. split; [exact Hrun | exact Htr].
Defined.



(** X4.  Whatever [getRepoInfo] returns is trimmed: neither the root
    nor the branch begins or ends with white space. *)
Theorem getRepoInfo_result_is_trimmed W m root branch m' :
  getRepoInfo W m = (Return (root, branch), m') ->
  starts_clean root = true /\ ends_clean root = true /\
  starts_clean branch = true /\ ends_clean branch = true.
Proof.
  rewrite getRepoInfo_run. cbv zeta. intros H.
  destruct (command_output W (length (trace m)) "git"
              ["rev-parse"; "--show-toplevel"]) as [o1|e1];
    [|discriminate H].
  destruct (command_output W (S (length (trace m))) "git"
              ["branch"; "--show-current"]) as [o2|e2];
    [|discriminate H].
  injection H as <- <- _.
  destruct (TrimFacts.trim_is_clean (stdout o1)) as [H1 H2].
  destruct (TrimFacts.trim_is_clean (stdout o2)) as [H3 H4].
  repeat split; assumption.
Qed.

Lemma getRepoInfo_result_is_trimmed_witness :
  starts_clean "/repo" = true /\ ends_clean "/repo" = true /\
  starts_clean "main" = true /\ ends_clean "main" = true.
Proof.
  exact (getRepoInfo_result_is_trimmed Demo.three_files Demo.fresh
           "/repo" "main" _ eq_refl).
Defined.

(** X5.  [getTrackedFiles] fails in three ways and never with a
    NotFound: a listing that reports failure throws its diagnostic
    output, what it printed being ignored; a git that is not found
    throws the hint to install it; any other error is passed on as it
    is. *)
Theorem getTrackedFiles_failures W m :
  let r := command_output W (length (trace m)) "git" ["ls-files"] in
  (forall o, r = Ok o -> success o = false ->
     fst (getTrackedFiles W m) =
       Throw (new_Error ("Git ls-files failed: " ++ stderr o))) /\
  (forall e, r = Err e -> notFound e = true ->
     fst (getTrackedFiles W m) =
       Throw (new_Error
         "Git executable not found. Please ensure git is installed and in your PATH")) /\
  (forall e, r = Err e -> notFound e = false ->
     fst (getTrackedFiles W m) = Throw e) /\
  (forall thrown m', getTrackedFiles W m = (Throw thrown, m') ->
     notFound thrown = false).
Proof.
  cbv zeta. rewrite getTrackedFiles_run. cbv zeta.
  destruct (command_output W (length (trace m)) "git" ["ls-files"]) as [o|e].
  - repeat split; try discriminate.
    + intros o' H Hs. injection H as <-. now rewrite Hs.
    + intros thrown m' H. destruct (success o); [discriminate H|].
      now injection H as <- _.
  - repeat split; try discriminate.
    + intros e' H Hnf. injection H as <-. now rewrite Hnf.
    + intros e' H Hnf. injection H as <-. now rewrite Hnf.
    + intros thrown m' H. destruct (notFound e) eqn:Hnf.
      * now injection H as <- _.
      * injection H as <- _. exact Hnf.
Qed.



(** X7.  Whatever git printed, no entry returned by [getTrackedFiles]
    contains a line feed or consists of white space only. *)
Theorem getTrackedFiles_entries_are_listable W m files m' :
  getTrackedFiles W m = (Return files, m') -> Forall listable files.
Proof.
  rewrite getTrackedFiles_run. cbv zeta. intros H.
  destruct (command_output W (length (trace m)) "git" ["ls-files"]) as [o|e];
    [|destruct (notFound e); discriminate H].
  destruct (success o); [|discriminate H]. injection H as <- _.
  unfold tracked_lines. apply Forall_forall. intros line Hin.
  apply filter_In in Hin as [Hin Hkeep].
  pose proof (TrimFacts.split_lines_have_no_LF (stdout o)) as Hall.
  rewrite Forall_forall in Hall. split; [now apply Hall|].
  apply negb_true_iff, String.eqb_neq in Hkeep.
  destruct (only_spaces line) eqn:E; [|reflexivity].
  exfalso. apply Hkeep. now apply TrimFacts.trim_empty_iff.
Qed.

Lemma getTrackedFiles_entries_are_listable_witness :
  Forall listable ["a.txt"; "img.png"; "link.txt"].
Proof.
  exact (getTrackedFiles_entries_are_listable Demo.three_files Demo.fresh
           ["a.txt"; "img.png"; "link.txt"] _ eq_refl).
Defined.

(* ================================================================= *)
(** ** The loop of [generate], whatever the world answers *)

Lemma iteration_requests W t out rel full :
  let it := iteration W t out rel full in
  lstat_paths (it_events it) = [full] /\
  1 <= length (it_events it) <= 4.
Proof.
  cbv zeta. unfold iteration, caught.
  destruct (lstat W t full) as [st|e1];
    [destruct (isSymlink st)|destruct (notFound e1)];
    try (cbn; split; [reflexivity | lia]).
  destruct (command_output W (S t) "file" [full]) as [o|e2];
    [destruct (binary_description (stdout o))|];
    try (cbn; split; [reflexivity | lia]).
  destruct (readTextFile W (S (S t)) full) as [content|e3];
    [|destruct (notFound e3)];
    try (cbn; split; [reflexivity | lia]).
  destruct (writeTextFile_failure W (S (S (S t))) out) as [e4|];
    [destruct (notFound e4)|]; cbn; (split; [reflexivity | lia]).
Qed.

Lemma iterations_requests W t out root files :
  let evs := events_of (iterations W t out root files) in
  lstat_paths evs = map (path_join W root) files /\
  length files <= length evs <= 4 * length files.
Proof.
  cbv zeta. revert t; induction files as [|rel rest IH]; intros t.
  - cbn. split; [reflexivity | lia].
  - cbn [iterations]. unfold events_of; cbn [flat_map].
    fold (events_of (iterations W
            (t + length (it_events (iteration W t out rel (path_join W root rel))))
            out root rest)).
    destruct (IH (t + length (it_events
                      (iteration W t out rel (path_join W root rel)))))
      as [IH1 IH2].
    destruct (iteration_requests W t out rel (path_join W root rel))
      as [H1 H2]. cbv zeta in H1, H2.
    unfold lstat_paths in *. rewrite flat_map_app, H1, IH1, length_app.
    cbn [map length app]. split; [reflexivity | lia].
Qed.

(** X8.  The loop over the tracked files never throws and never exits,
    whatever the world answers.  It asks [lstat] about each file exactly
    once, in listing order, under the path joined to the repository
    root, makes between one and four requests per file, and the counters
    never decrease and together grow by at most one per file. *)
Theorem loop_never_aborts W files m :
  exists m' evs,
    for_of files (process_file W) m = (Return tt, m') /\
    trace m' = (trace m ++ evs)%list /\
    lstat_paths evs = map (path_join W (repoRoot m)) files /\
    length files <= length evs <= 4 * length files /\
    processed (stats m) <= processed (stats m') /\
    skipped (stats m) <= skipped (stats m') /\
    processed (stats m') + skipped (stats m') <=
      processed (stats m) + skipped (stats m) + length files.
Proof.
  set (its := iterations W (length (trace m)) (outputFile m) (repoRoot m) files).
  exists (after_iterations its m), (events_of its).
  split; [apply for_of_process_file|].
  split; [apply after_iterations_trace|].
  destruct (iterations_requests W (length (trace m)) (outputFile m)
              (repoRoot m) files) as [H1 H2]. cbv zeta in H1, H2. fold its in H1, H2.
  split; [exact H1|]. split; [exact H2|].
  rewrite after_iterations_stats.
  destruct (tally_counts its (stats m)) as [Hp Hs]. rewrite Hp, Hs.
  pose proof (count_outcomes_total its) as Htot.
  assert (Hlen : length its = length files) by apply iterations_length.
  lia.
Qed.

(* ================================================================= *)
(** ** What a run never does *)

Lemma confined_refl m : confined m m.
Proof.
  repeat split. exists []. split; [now rewrite app_nil_r | constructor].
Qed.

Lemma confined_trans m1 m2 m3 :
  confined m1 m2 -> confined m2 m3 -> confined m1 m3.
Proof.
  intros [Ho1 [Hf1 [evs1 [Ht1 Hw1]]]] [Ho2 [Hf2 [evs2 [Ht2 Hw2]]]].
  rewrite Ho1 in Ho2, Hf2, Hw2. repeat split.
  - exact Ho2.
  - intros p Hp. now rewrite Hf2, Hf1.
  - exists (evs1 ++ evs2)%list. split.
    + now rewrite Ht2, Ht1, app_assoc.
    + apply Forall_app. now split.
Qed.

Lemma confined_add_trace e m :
  writes_to (outputFile m) e -> confined m (add_trace e m).
Proof.
  intros H. repeat split. exists [e]. split; [reflexivity|].
  constructor; [exact H | constructor].
Qed.

Lemma confined_quiet m m' :
  outputFile m' = outputFile m -> fs m' = fs m -> trace m' = trace m ->
  confined m m'.
Proof.
  intros Ho Hf Ht. repeat split; [exact Ho | now rewrite Hf |].
  exists []. split; [now rewrite Ht, app_nil_r | constructor].
Qed.

Lemma tame_ret {A} (a : A) m : tame_at m (ret a).
Proof.
  intros r m' H. injection H as <- <-.
  split; [apply confined_refl | discriminate].
Qed.

Lemma tame_quiet_modify f m :
  outputFile (f m) = outputFile m -> fs (f m) = fs m -> trace (f m) = trace m ->
  tame_at m (modify f).
Proof.
  intros Ho Hf Ht r m' H. injection H as <- <-.
  split; [now apply confined_quiet | discriminate].
Qed.

Lemma tame_console_log c s m : tame_at m (console_log c s).
Proof. now apply tame_quiet_modify. Qed.

Lemma tame_bind {A B} (c : M A) (k : A -> M B) m :
  tame_at m c ->
  (forall a m1, c m = (Return a, m1) -> confined m m1 -> tame_at m1 (k a)) ->
  tame_at m (bind c k).
Proof.
  intros Hc Hk r m' H. unfold bind in H.
  destruct (c m) as [[a|e|code] m1] eqn:E.
  - destruct (Hc _ _ E) as [Hconf _].
    destruct (Hk a m1 eq_refl Hconf _ _ H) as [Hconf' Hne].
    split; [now apply (confined_trans _ m1) | exact Hne].
  - injection H as <- <-. destruct (Hc _ _ E) as [Hconf _].
    split; [exact Hconf | discriminate].
  - destruct (Hc _ _ E) as [_ Hne]. now destruct (Hne code).
Qed.

Lemma tame_get_bind {A B} (proj : Machine -> A) (k : A -> M B) m :
  tame_at m (k (proj m)) -> tame_at m (bind (get proj) k).
Proof. intros H r m' Hrun. exact (H r m' Hrun). Qed.

Lemma tame_date W m : tame_at m (new_Date_toISOString W).
Proof.
  intros r m' H. injection H as <- <-.
  split; [now apply confined_add_trace | discriminate].
Qed.

Lemma tame_write W data a m :
  tame_at m (Deno_writeTextFile W (outputFile m) data a).
Proof.
  intros r m' H. unfold Deno_writeTextFile in H.
  destruct (writeTextFile_failure W (length (trace m)) (outputFile m)).
  - injection H as <- <-.
    split; [now apply confined_add_trace | discriminate].
  - injection H as <- <-. split; [|discriminate].
    repeat split.
    + intros p Hp. cbn [set_fs add_trace fs]. now apply fs_write_other.
    + eexists. split; [reflexivity|]. repeat constructor.
Qed.

Lemma tame_getRepoInfo W m : tame_at m (getRepoInfo W).
Proof.
  intros r m' H. rewrite getRepoInfo_run in H. cbv zeta in H.
  destruct (command_output W (length (trace m)) "git"
              ["rev-parse"; "--show-toplevel"]).
  - injection H as <- <-. split.
    + eapply confined_trans; now apply confined_add_trace.
    + destruct (command_output W (S (length (trace m))) "git"
                  ["branch"; "--show-current"]); discriminate.
  - injection H as <- <-. split; [now apply confined_add_trace|discriminate].
Qed.

Lemma tame_getTrackedFiles W m : tame_at m (getTrackedFiles W).
Proof.
  intros r m' H. rewrite getTrackedFiles_run in H. cbv zeta in H.
  injection H as <- <-. split; [now apply confined_add_trace|].
  destruct (command_output W (length (trace m)) "git" ["ls-files"]) as [o|e];
    [destruct (success o) | destruct (notFound e)]; discriminate.
Qed.

Lemma iteration_writes W t out rel full :
  Forall (writes_to out) (it_events (iteration W t out rel full)).
Proof.
  unfold iteration, caught.
  destruct (lstat W t full) as [st|e1];
    [destruct (isSymlink st)|destruct (notFound e1)];
    try (repeat constructor).
  destruct (command_output W (S t) "file" [full]) as [o|e2];
    [destruct (binary_description (stdout o))|];
    try (repeat constructor).
  destruct (readTextFile W (S (S t)) full) as [content|e3];
    [|destruct (notFound e3)];
    try (repeat constructor).
  destruct (writeTextFile_failure W (S (S (S t))) out) as [e4|];
    [destruct (notFound e4)|]; repeat constructor.
Qed.

Lemma iterations_writes W t out root files :
  Forall (writes_to out) (events_of (iterations W t out root files)).
Proof.
  revert t; induction files as [|rel rest IH]; intros t; [constructor|].
  cbn [iterations]. unfold events_of; cbn [flat_map].
  apply Forall_app. split; [apply iteration_writes | apply IH].
Qed.

Lemma tame_loop W files m : tame_at m (for_of files (process_file W)).
Proof.
  intros r m' H. rewrite for_of_process_file in H. injection H as <- <-.
  split; [|discriminate]. repeat split.
  - apply after_iterations_outputFile.
  - intros p Hp. now apply after_iterations_other_files.
  - eexists. split; [apply after_iterations_trace | apply iterations_writes].
Qed.

Ltac same_output :=
  repeat match goal with
         | H : confined _ _ |- _ => destruct H as [? _]
         end;
  cbn [outputFile set_repoRoot] in *; congruence.

(** Once the repository check has passed, the rest of [generate] keeps
    to the output file and never exits. *)
Lemma generate_tame_after_check W m r m' :
  generate W m = (r, m') ->
  fst (checkGitRepo W m) = Return true ->
  confined m m' /\ forall code, r <> Exit code.
Proof.
  intros H Hcheck. unfold generate in H. unfold bind at 1 in H.
  rewrite checkGitRepo_run in *. cbn [fst] in Hcheck.
  injection Hcheck as Hcheck. rewrite Hcheck in H. cbn [negb] in H.
  match type of H with
  | ?c ?m1 = _ =>
      assert (T : tame_at m1 c); [|destruct (T _ _ H) as [Hconf Hne]]
  end.
  { apply tame_bind; [apply tame_ret|]. intros ? m1 ? C1.
    apply tame_bind; [apply tame_getRepoInfo|]. intros info m2 ? C2.
    apply tame_bind; [now apply tame_quiet_modify|]. intros ? m3 ? C3.
    apply tame_get_bind.
    apply tame_bind; [apply tame_console_log|]. intros ? m4 ? C4.
    apply tame_bind; [apply tame_date|]. intros iso m5 ? C5.
    apply tame_bind.
    { replace (outputFile m3) with (outputFile m5) by same_output.
      apply tame_write. }
    intros ? m6 ? C6.
    apply tame_bind; [apply tame_getTrackedFiles|]. intros files m7 ? C7.
    apply tame_bind; [apply tame_loop|]. intros ? m8 ? C8.
    apply tame_bind; [apply tame_date|]. intros iso' m9 ? C9.
    apply tame_get_bind.
    apply tame_bind.
    { replace (outputFile m3) with (outputFile m9) by same_output.
      apply tame_write. }
    intros ? m10 ? C10.
    repeat (apply tame_bind; [apply tame_console_log|]; intros).
    apply tame_console_log. }
  split; [|exact Hne].
  eapply confined_trans; [|exact Hconf]. now apply confined_add_trace.
Qed.

Lemma checkGitRepo_cases W m :
  fst (checkGitRepo W m) = Return true \/ fst (checkGitRepo W m) = Return false.
Proof.
  rewrite checkGitRepo_run. cbn [fst].
  destruct (command_output W (length (trace m)) "git" ["rev-parse"; "--git-dir"])
    as [o|e]; [destruct (success o)|]; auto.
Qed.

Lemma generate_not_a_repository_run W m :
  fst (checkGitRepo W m) = Return false ->
  generate W m =
    (Exit 1,
     add_trace (EvExit 1)
       (add_console (err_line Red "Error: Not a git repository")
          (add_trace
             (EvCommand "git" ["rev-parse"; "--git-dir"]
                (command_output W (length (trace m)) "git"
                   ["rev-parse"; "--git-dir"])) m))).
Proof.
  intros Hcheck. rewrite checkGitRepo_run in Hcheck. cbn [fst] in Hcheck.
  injection Hcheck as Hcheck.
  unfold generate. unfold bind at 1. rewrite checkGitRepo_run, Hcheck.
  reflexivity.
Qed.

(** X9.  However a run of [generate] ends (returning, throwing or
    exiting), the only file it may have changed is the output file, and
    every write it requested was addressed to the output file. *)
Theorem generate_keeps_to_output_file W m r m' :
  generate W m = (r, m') -> confined m m'.
Proof.
  intros H. destruct (checkGitRepo_cases W m) as [Hcheck|Hcheck].
  - exact (proj1 (generate_tame_after_check W m r m' H Hcheck)).
  - rewrite (generate_not_a_repository_run W m Hcheck) in H.
    injection H as <- <-.
    unfold confined, add_trace, add_console; cbn [outputFile fs trace].
    repeat split. eexists.
    split; [rewrite <- app_assoc; reflexivity | repeat constructor].
Qed.

Lemma generate_keeps_to_output_file_witness :
  fs (snd (generate Cases.summary_refused Cases.used)) "notes.md" =
    Some "keep me".
Proof.
  destruct (generate_keeps_to_output_file Cases.summary_refused Cases.used
              _ _ (surjective_pairing _)) as [_ [Hfs _]].
  rewrite (Hfs "notes.md"); [reflexivity | vm_compute; discriminate].
Defined.

(** X10.  [generate] calls [Deno.exit] only with status 1 and only
    when the repository check fails; in that case nothing was written. *)
Theorem generate_exits_only_when_not_a_repository W m code m' :
  generate W m = (Exit code, m') ->
  code = 1 /\
  fst (checkGitRepo W m) = Return false /\
  fs m' = fs m /\
  filter is_write (trace m') = filter is_write (trace m).
Proof.
  intros H. destruct (checkGitRepo_cases W m) as [Hcheck|Hcheck].
  - destruct (generate_tame_after_check W m _ m' H Hcheck) as [_ Hne].
    now destruct (Hne code).
  - rewrite (generate_not_a_repository_run W m Hcheck) in H.
    injection H as <- <-. repeat split; [exact Hcheck|].
    unfold add_trace, add_console; cbn [trace].
    rewrite !filter_app. cbn [filter is_write]. now rewrite !app_nil_r.
Qed.

Lemma generate_exits_only_when_not_a_repository_witness :
  generate Demo.not_a_repo Demo.fresh =
    (Exit 1, snd (generate Demo.not_a_repo Demo.fresh)) /\
  fst (checkGitRepo Demo.not_a_repo Demo.fresh) = Return false.
Proof.
  assert (H : generate Demo.not_a_repo Demo.fresh =
              (Exit 1, snd (generate Demo.not_a_repo Demo.fresh)))
    by (vm_compute; reflexivity).
  split; [exact H|].
  exact (proj1 (proj2 (generate_exits_only_when_not_a_repository
                         Demo.not_a_repo Demo.fresh 1 _ H))).
Defined.

(* ================================================================= *)
(** ** The stages of [generate] *)

Ltac pass_check H0 S0 :=
  unfold generate; unfold bind at 1; rewrite checkGitRepo_run, H0, S0;
  cbn [negb]; unfold bind at 1 2; unfold ret at 1.

Ltac pass_info H1 H2 :=
  unfold bind at 1; rewrite getRepoInfo_run, tick_add_trace, H1, H2;
  cbn [fst snd].

Ltac reach_header_write :=
  unfold bind at 1; unfold modify at 1;
  unfold bind at 1; unfold get at 1;
  unfold bind at 1; unfold console_log at 1, modify at 1;
  unfold bind at 1; unfold new_Date_toISOString at 1;
  unfold bind at 1; unfold Deno_writeTextFile at 1;
  unfold add_console, set_repoRoot, add_trace;
  cbn [outputFile stats repoRoot fs console trace]; rewrite !last_length.

Ltac reach_listing :=
  unfold bind at 1; rewrite getTrackedFiles_run;
  unfold set_fs, add_trace;
  cbn [outputFile stats repoRoot fs console trace]; rewrite !last_length.

Ltac reach_summary_write :=
  unfold bind at 1; rewrite for_of_process_file;
  cbn [outputFile stats repoRoot fs console trace]; rewrite !last_length;
  unfold bind at 1; unfold new_Date_toISOString at 1;
  unfold bind at 1; unfold get at 1;
  unfold bind at 1; unfold Deno_writeTextFile at 1;
  unfold add_trace;
  cbn [outputFile stats repoRoot fs console trace]; rewrite !last_length;
  rewrite !after_iterations_trace, !after_iterations_outputFile,
    ?after_iterations_repoRoot;
  cbn [outputFile stats repoRoot fs console trace];
  rewrite !length_app; cbn [length]; rewrite ?last_length.

(** X11.  When the repository check succeeds, both queries of
    [getRepoInfo] are answered, the listing succeeds and the header and
    the summary can be written, [generate] returns: no answer about an
    individual file can make the run fail. *)
Theorem generate_goes_through W m :
  run_goes_through W m -> exists m', generate W m = (Return tt, m').
Proof.
  intros [[o0 [H0 S0]] [[o1 H1] [[o2 H2] [H4 [[o5 [H5 S5]] H9]]]]].
  unfold loop_of, root_of, listed_files in H9.
  cbn [Nat.add] in H1, H2, H4, H5, H9.
  rewrite H1, H5 in H9. cbn [answer_stdout] in H9.
  pass_check H0 S0. pass_info H1 H2. reach_header_write. rewrite H4.
  reach_listing. rewrite H5, S5. reach_summary_write.
  match goal with
  | |- context [writeTextFile_failure W ?n (outputFile m)] =>
      match type of H9 with
      | writeTextFile_failure W ?k _ = _ =>
          replace n with k by lia
      end
  end.
  rewrite H9. eexists. reflexivity.
Qed.

Lemma generate_goes_through_witness :
  run_goes_through Demo.three_files Demo.fresh /\
  exists m', generate Demo.three_files Demo.fresh = (Return tt, m').
Proof.
  assert (H : run_goes_through Demo.three_files Demo.fresh).
  { unfold run_goes_through. cbv zeta.
    split; [eexists; split; reflexivity|].
    split; [eexists; reflexivity|].
    split; [eexists; reflexivity|].
    split; [reflexivity|].
    split; [eexists; split; reflexivity|].
    vm_compute; reflexivity. }
  split; [exact H|].
  exact (generate_goes_through Demo.three_files Demo.fresh H).
Defined.




(** X13.  When the listing fails after the header was written,
    [generate] throws and leaves the output file holding the header
    alone: whatever the file held before is gone, no per-file work was
    started and the counters are untouched.  The error thrown is never a
    NotFound. *)
Theorem generate_fails_after_header W m o0 o1 o2 :
  let t := length (trace m) in
  let out := outputFile m in
  command_output W t "git" ["rev-parse"; "--git-dir"] = Ok o0 ->
  success o0 = true ->
  command_output W (1 + t) "git" ["rev-parse"; "--show-toplevel"] = Ok o1 ->
  command_output W (2 + t) "git" ["branch"; "--show-current"] = Ok o2 ->
  writeTextFile_failure W (4 + t) out = None ->
  (forall o, command_output W (5 + t) "git" ["ls-files"] = Ok o ->
             success o = false) ->
  exists thrown m',
    generate W m = (Throw thrown, m') /\
    notFound thrown = false /\
    fs m' out =
      Some (header_text (date_toISOString W (3 + t)) (Js.trim (stdout o1))
              (Js.trim (stdout o2)) (denojson_version W)) /\
    (forall p, p <> out -> fs m' p = fs m p) /\
    stats m' = stats m /\
    length (trace m') = 6 + t /\
    lstat_paths (trace m') = lstat_paths (trace m).
Proof.
  cbv zeta. cbn [Nat.add]. intros H0 S0 H1 H2 H4 H5.
  pass_check H0 S0. pass_info H1 H2. reach_header_write. rewrite H4.
  reach_listing.
  assert (Hthrow : exists thrown,
    match command_output W (S (S (S (S (S (length (trace m))))))) "git"
            ["ls-files"] with
    | Ok o =>
        if success o then Return (tracked_lines (stdout o))
        else Throw (new_Error ("Git ls-files failed: " ++ stderr o))
    | Err e =>
        if notFound e
        then Throw (new_Error
          "Git executable not found. Please ensure git is installed and in your PATH")
        else Throw e
    end = Throw thrown /\ notFound thrown = false).
  { destruct (command_output W _ "git" ["ls-files"]) as [o|e] eqn:E.
    - rewrite (H5 o eq_refl). eexists; split; reflexivity.
    - destruct (notFound e) eqn:Hnf; eexists; split;
        try reflexivity; exact Hnf. }
  destruct Hthrow as [thrown [Hthrow Hnf]]. rewrite Hthrow.
  exists thrown. eexists. split; [reflexivity|]. split; [exact Hnf|].
  cbn [fs stats trace]. repeat split.
  - unfold fs_write. now rewrite String.eqb_refl.
  - intros p Hp. now apply fs_write_other.
  - rewrite !length_app. cbn [length]. lia.
  - unfold lstat_paths. rewrite !flat_map_app. cbn [flat_map].
    now rewrite !app_nil_r.
Qed.

Lemma generate_fails_after_header_witness :
  exists thrown m',
    generate Cases.listing_fails Cases.used = (Throw thrown, m') /\
    message thrown = "Git ls-files failed: fatal: index file corrupt" /\
    fs Cases.used "repo_context.txt" = Some "stale" /\
    fs m' "repo_context.txt" =
      Some (header_text "2024-01-31T12:00:00.000Z" "/repo" "main" "1.0.0").
Proof.
  destruct (generate_fails_after_header Cases.listing_fails Cases.used
              {| success := true; code := 0; stdout := ".git" ++ Js.nl;
                 stderr := "" |}
              {| success := true; code := 0; stdout := "/repo" ++ Js.nl;
                 stderr := "" |}
              {| success := true; code := 0; stdout := "main" ++ Js.nl;
                 stderr := "" |}
              eq_refl eq_refl eq_refl eq_refl eq_refl)
    as [thrown [m' [Hrun [_ [Hfs _]]]]].
  { intros o H. injection H as <-. reflexivity. }
  exists thrown, m'. split; [exact Hrun|].
  split.
  - assert (Hc : generate Cases.listing_fails Cases.used =
                 (Throw (new_Error "Git ls-files failed: fatal: index file corrupt"),
                  snd (generate Cases.listing_fails Cases.used)))
      by (vm_compute; reflexivity).
    rewrite Hc in Hrun. now injection Hrun as <- _.
  - split; [reflexivity|].
    refine (eq_trans Hfs _). vm_compute. reflexivity.
Defined.



(* ================================================================= *)
(** ** The file sections *)

Lemma file_section_shape rel content :
  file_section rel content = section_start rel ++ content ++ section_end rel.
Proof.
  unfold file_section, section_start, section_end.
  now rewrite !append_assoc.
Qed.

(** X15.  A file section embeds the content as it is, without cutting
    or escaping: for a given path the content can be read back from the
    section (equal sections have equal contents), and the section is 33
    characters and twice the path longer than the content. *)
Theorem file_section_embeds_content_verbatim rel :
  (forall c1 c2, file_section rel c1 = file_section rel c2 -> c1 = c2) /\
  (forall c,
     String.length (file_section rel c) =
     String.length c + 2 * String.length rel + 33).
Proof.
  split.
  - intros c1 c2 H. rewrite !file_section_shape in H.
    apply append_cancel_l in H. now apply append_cancel_r in H.
  - intros c. unfold file_section. rewrite !length_append.
    cbn [String.length Js.nl]. lia.
Qed.

(** X16.  Nothing in a content is escaped, so a document does not
    tell where its sections end: one file whose content holds the
    markers yields the same bytes as three files in a row. *)
Theorem content_with_markers_reads_as_several_sections a b x y z :
  sections_text
    [(a, x ++ section_end a ++ file_section b y ++ section_start a ++ z)] =
  sections_text [(a, x); (b, y); (a, z)].
Proof.
  unfold sections_text; cbn [fold_right fst snd].
  rewrite !append_empty_r.
  rewrite (file_section_shape a (x ++ _)), (file_section_shape a x),
    (file_section_shape a z).
  now rewrite !append_assoc.
Qed.

(* ================================================================= *)
(** ** The command line *)

Lemma main_runs_generate W args m :
  help args = false -> version args = false ->
  main W args m = generate W (construct (output args) m).
Proof.
  intros Hh Hv. unfold main. rewrite Hh, Hv. reflexivity.
Qed.

Lemma main_early_exit W args m :
  help args = true \/ version args = true ->
  main W args m =
    (Exit 0,
     add_trace (EvExit 0)
       (add_console
          (out_line Plain
             (if help args then HELP_TEXT W
              else "Repository Context Generator v" ++ denojson_version W))
          m)).
Proof.
  intros H. unfold main. destruct (help args) eqn:Hh.
  - reflexivity.
  - destruct H as [H|H]; [discriminate H|]. rewrite H. reflexivity.
Qed.

(** X17.  With [--help] or [--version], [main] prints one line on
    standard output (the help text, which wins over the version) and
    exits with status 0: no command is run, no file is touched, and no
    generator is made, whatever [--output] says. *)
Theorem main_help_or_version W args m :
  help args = true \/ version args = true ->
  exists m',
    main W args m = (Exit 0, m') /\
    fs m' = fs m /\
    trace m' = (trace m ++ [EvExit 0])%list /\
    console m' =
      (console m ++
       [out_line Plain
          (if help args then HELP_TEXT W
           else "Repository Context Generator v" ++ denojson_version W)])%list /\
    outputFile m' = outputFile m /\ stats m' = stats m.
Proof.
  intros H. rewrite main_early_exit by exact H.
  eexists. split; [reflexivity|]. repeat split.
Qed.

Lemma main_help_or_version_witness :
  fst (main Demo.three_files
         {| output := "out.txt"; version := true; help := true |}
         Demo.fresh) = Exit 0.
Proof.
  destruct (main_help_or_version Demo.three_files
              {| output := "out.txt"; version := true; help := true |}
              Demo.fresh (or_introl eq_refl)) as [m' [Hrun _]].
  now rewrite Hrun.
Defined.

(** X18.  Whenever [main] ends through [Deno.exit], no file was
    changed.  The status is 0 exactly when help or version was asked
    for, and 1 otherwise, which happens only when the repository check
    fails. *)
Theorem main_exit_status W args m code m' :
  main W args m = (Exit code, m') ->
  fs m' = fs m /\
  (code = 0 /\ (help args = true \/ version args = true) \/
   code = 1 /\ help args = false /\ version args = false /\
   fst (checkGitRepo W (construct (output args) m)) = Return false).
Proof.
  intros H. destruct (help args) eqn:Hh; [|destruct (version args) eqn:Hv].
  - rewrite main_early_exit in H by (left; exact Hh).
    injection H as <- <-. split; [reflexivity|]. left. now split; [|left].
  - rewrite main_early_exit in H by (right; exact Hv).
    injection H as <- <-. split; [reflexivity|]. left. now split; [|right].
  - rewrite main_runs_generate in H by assumption.
    destruct (checkGitRepo_cases W (construct (output args) m))
      as [Hcheck|Hcheck].
    + destruct (generate_tame_after_check W _ _ m' H Hcheck) as [_ Hne].
      now destruct (Hne code).
    + rewrite (generate_not_a_repository_run W _ Hcheck) in H.
      injection H as <- <-. split; [reflexivity|]. right. now repeat split.
Qed.

Lemma main_exit_status_witness :
  main Demo.not_a_repo
    {| output := "out.txt"; version := false; help := false |} Demo.fresh =
    (Exit 1,
     snd (main Demo.not_a_repo
            {| output := "out.txt"; version := false; help := false |}
            Demo.fresh)) /\
  fs (snd (main Demo.not_a_repo
             {| output := "out.txt"; version := false; help := false |}
             Demo.fresh)) = fs Demo.fresh.
Proof.
  assert (H : main Demo.not_a_repo
                {| output := "out.txt"; version := false; help := false |}
                Demo.fresh =
              (Exit 1,
               snd (main Demo.not_a_repo
                      {| output := "out.txt"; version := false; help := false |}
                      Demo.fresh)))
    by (vm_compute; reflexivity).
  split; [exact H|].
  exact (proj1 (main_exit_status Demo.not_a_repo _ Demo.fresh 1 _ H)).
Defined.

(* ================================================================= *)
(** ** The other fates of a tracked file *)

(** X19.  When [lstat] itself fails, the file is neither classified
    nor read: [lstat] is the only request.  A NotFound counts the file
    as skipped and reports it missing; any other error is printed and
    counted nowhere.  Either way the turn returns and nothing is
    written. *)
Theorem lstat_failure_ends_the_turn W rel m e :
  let full := path_join W (repoRoot m) rel in
  lstat W (length (trace m)) full = Err e ->
  exists m',
    process_file W rel m = (Return tt, m') /\
    trace m' = (trace m ++ [EvLstat full (Err e)])%list /\
    fs m' = fs m /\
    processed (stats m') = processed (stats m) /\
    (notFound e = true ->
       skipped (stats m') = S (skipped (stats m)) /\
       console m' =
         (console m ++ [out_line Yellow ("Skipped missing file: " ++ rel)])%list) /\
    (notFound e = false ->
       stats m' = stats m /\
       console m' =
         (console m ++
          [err_line Red ("Error processing " ++ rel ++ ": " ++ message e)])%list).
Proof.
  intros full H1.
  pose proof (process_file_iteration W rel m) as Hrun.
  fold full in Hrun. unfold iteration in Hrun. rewrite H1 in Hrun.
  eexists. split; [exact Hrun|].
  unfold caught, after_iteration.
  destruct (notFound e); cbn [stats fs console trace it_outcome it_lines
                              it_events count_outcome processed skipped];
    repeat split; try reflexivity; intros; discriminate.
Qed.

Lemma lstat_failure_ends_the_turn_witness :
  lstat Demo.not_a_repo 0 "/repo/a.txt" = Err Demo.gone /\
  exists m',
    process_file Demo.not_a_repo "a.txt" Demo.in_loop = (Return tt, m') /\
    skipped (stats m') = 1.
Proof.
  split; [reflexivity|].
  destruct (lstat_failure_ends_the_turn Demo.not_a_repo "a.txt" Demo.in_loop
              Demo.gone eq_refl) as [m' [Hrun [_ [_ [_ [Hnf _]]]]]].
  exists m'. split; [exact Hrun|]. exact (proj1 (Hnf eq_refl)).
Defined.

(** X20.  A file that file(1) describes with neither "text" nor
    "empty" is counted as skipped and never read: the turn makes two
    requests, [lstat] and file(1), writes nothing and returns. *)
Theorem binary_file_is_skipped_unread W rel m st o :
  let full := path_join W (repoRoot m) rel in
  lstat W (length (trace m)) full = Ok st ->
  isSymlink st = false ->
  command_output W (S (length (trace m))) "file" [full] = Ok o ->
  ~ (occurs_ignoring_case "text" (stdout o) \/
     occurs_ignoring_case "empty" (stdout o)) ->
  exists m',
    process_file W rel m = (Return tt, m') /\
    trace m' =
      (trace m ++ [EvLstat full (Ok st); EvCommand "file" [full] (Ok o)])%list /\
    fs m' = fs m /\
    processed (stats m') = processed (stats m) /\
    skipped (stats m') = S (skipped (stats m)) /\
    console m' =
      (console m ++ [out_line Yellow ("Skipped binary file: " ++ rel)])%list.
Proof.
  intros full H1 Hs H2 Hno.
  assert (Hb : binary_description (stdout o) = true).
  { destruct (binary_description (stdout o)) eqn:E; [reflexivity|].
    exfalso. apply Hno. now apply binary_description_spec. }
  pose proof (process_file_iteration W rel m) as Hrun.
  fold full in Hrun. unfold iteration in Hrun.
  rewrite H1, Hs, H2, Hb in Hrun.
  eexists. split; [exact Hrun|]. repeat split.
Qed.

Lemma binary_file_is_skipped_unread_witness :
  command_output Demo.three_files 1 "file" ["/repo/img.png"] =
    Demo.answer true 0 "/repo/img.png: PNG image data, 16 x 16" /\
  exists m',
    process_file Demo.three_files "img.png" Demo.in_loop = (Return tt, m') /\
    filter is_read (trace m') = [] /\
    skipped (stats m') = 1.
Proof.
  split; [reflexivity|].
  destruct (binary_file_is_skipped_unread Demo.three_files "img.png"
              Demo.in_loop
              {| isFile := true; isDirectory := false; isSymlink := false |}
              {| success := true; code := 0;
                 stdout := "/repo/img.png: PNG image data, 16 x 16";
                 stderr := "" |}
              eq_refl eq_refl eq_refl)
    as [m' [Hrun [Htr [_ [_ [Hsk _]]]]]].
  - intros H. apply binary_description_spec in H. discriminate H.
  - exists m'. split; [exact Hrun|]. split; [now rewrite Htr | exact Hsk].
Defined.

(** X21.  A file that is no symbolic link, that file(1) describes as
    text or empty, that can be read and whose section can be appended is
    processed: its section, built from its relative path and the content
    read, is appended to the output file (created if absent), no other
    file changes, the processed counter grows by one and the skipped
    counter stays. *)
Theorem text_file_is_processed W rel m st o content :
  let full := path_join W (repoRoot m) rel in
  let t := length (trace m) in
  let out := outputFile m in
  lstat W t full = Ok st ->
  isSymlink st = false ->
  command_output W (S t) "file" [full] = Ok o ->
  occurs_ignoring_case "text" (stdout o) \/
  occurs_ignoring_case "empty" (stdout o) ->
  readTextFile W (S (S t)) full = Ok content ->
  writeTextFile_failure W (S (S (S t))) out = None ->
  exists m',
    process_file W rel m = (Return tt, m') /\
    fs m' out =
      Some (match fs m out with
            | Some old => old ++ file_section rel content
            | None => file_section rel content
            end) /\
    (forall p, p <> out -> fs m' p = fs m p) /\
    processed (stats m') = S (processed (stats m)) /\
    skipped (stats m') = skipped (stats m) /\
    trace m' =
      (trace m ++
       [EvLstat full (Ok st); EvCommand "file" [full] (Ok o);
        EvReadTextFile full (Ok content);
        EvWriteTextFile out (file_section rel content) true None])%list /\
    console m' = (console m ++ [out_line Green ("Processed: " ++ rel)])%list.
Proof.
  intros full t out H1 Hs H2 Hocc H3 H4.
  assert (Hb : binary_description (stdout o) = false)
    by now apply binary_description_spec.
  pose proof (process_file_iteration W rel m) as Hrun.
  fold full t out in Hrun. unfold iteration in Hrun.
  rewrite H1, Hs, H2, Hb, H3, H4 in Hrun.
  eexists. split; [exact Hrun|].
  unfold after_iteration, section_of;
    cbn [stats fs console trace it_outcome it_lines it_events it_path
         count_outcome processed skipped].
  repeat split.
  - unfold fs_write. fold out. rewrite String.eqb_refl.
    destruct (fs m out); reflexivity.
  - intros p Hp. now apply fs_write_other.
Qed.

Lemma text_file_is_processed_witness :
  readTextFile Demo.three_files 2 "/repo/a.txt" = Ok "hello" /\
  exists m',
    process_file Demo.three_files "a.txt" Demo.in_loop = (Return tt, m') /\
    fs m' "repo_context.txt" = Some (file_section "a.txt" "hello") /\
    processed (stats m') = 1.
Proof.
  split; [reflexivity|].
  destruct (text_file_is_processed Demo.three_files "a.txt" Demo.in_loop
              {| isFile := true; isDirectory := false; isSymlink := false |}
              {| success := true; code := 0;
                 stdout := "/repo/a.txt: ASCII text"; stderr := "" |}
              "hello" eq_refl eq_refl eq_refl)
    as [m' [Hrun [Hfs [_ [Hp _]]]]].
  - left. exists "/repo/a.txt: ASCII ", "text", "".
    split; [reflexivity | repeat constructor].
  - reflexivity.
  - reflexivity.
  - exists m'. split; [exact Hrun|]. split; [exact Hfs | exact Hp].
Defined.

(* ================================================================= *)
(** ** Sample runs of the further properties *)

Lemma getTrackedFiles_failures_witness :
  fst (getTrackedFiles Cases.listing_fails Demo.fresh) =
    Throw (new_Error "Git ls-files failed: fatal: index file corrupt").
Proof.
  exact (proj1 (getTrackedFiles_failures Cases.listing_fails Demo.fresh)
           _ eq_refl eq_refl).
Defined.

Lemma file_section_embeds_content_verbatim_witness :
  String.length (file_section "a.txt" "hello") = 5 + 2 * 5 + 33.
Proof.
  exact (proj2 (file_section_embeds_content_verbatim "a.txt") "hello").
Defined.
